(** * The CSV -> Postgres -> ClickHouse pipeline of [etl/etl.py]

    A shallow embedding of the transform-and-load core: the anonymizer
    [hmac_hash], the default filler [fill_defaults], the normalizer
    [transform_df], the two store adapters and the run controller [main];
    and of one run of the Airflow DAG of [airflow/dags/csv_elt_dag.py],
    which starts the script once to ingest and once to transform.

    Python objects that are mutated in place (pandas DataFrames) live in a
    heap and are passed by reference; the two stores, the metrics table, the
    console and the sources of run identifiers and of wall-clock time are
    fields of one [World] that every stage threads through. Exceptions are
    results: a statement ends with [Ok] or with [Raise], and leaves a state
    behind in both cases.

    What the interpreter and its libraries compute ([hmac], [str], the
    parsers of pandas) is a [Runtime] the development is parametric in; the
    worked inputs run on [example_runtime], whose HMAC-SHA256 is checked
    against published digests. The behaviour of pandas that is modelled is
    that of the releases up to 2.x. *)

From Stdlib Require Import ZArith Floats.
From stdpp Require Import base option list strings gmap pretty.

Local Open Scope Z_scope.
Local Open Scope string_scope.
Local Open Scope list_scope.

(** ** Python scalars *)

(** A cell of a DataFrame, a policy default, a value of the YAML file:
    [None], [pandas.NaT], a [str] (kept as its UTF-8 bytes), an [int], a
    [float] (IEEE binary64, so [nan] and the infinities are floats, as in
    Python) or a [pandas.Timestamp] (nanoseconds since the epoch). *)
Inductive value : Type :=
  | VNone
  | VNaT
  | VStr (s : string)
  | VInt (z : Z)
  | VFloat (f : float)
  | VTime (t : Z).

Inductive number : Type :=
  | NInt (z : Z)
  | NFloat (f : float).

Definition value_of_number (n : number) : value :=
  match n with NInt z => VInt z | NFloat f => VFloat f end.

(** A pandas Series is the list of its cells. Cells keep their Python type:
    the numpy dtype a column is stored under is not part of the model. *)
Abbreviation Series := (list value) (only parsing).

(** [pd.isna] / [pd.isnull] on a scalar, and [pd.notna]. *)
Definition isna (v : value) : bool :=
  match v with
  | VNone | VNaT => true
  | VFloat f => PrimFloat.is_nan f
  | _ => false
  end.

Definition notna (v : value) : bool := negb (isna v).

(** [v is None] *)
Definition is_None (v : value) : bool :=
  match v with VNone => true | _ => false end.

(** [int(f)] for a float: truncation towards zero, undefined on [nan] and on
    the infinities. *)
Definition float_to_Z (f : float) : option Z :=
  match Prim2SF f with
  | S754_zero _ => Some 0
  | S754_finite sgn m e =>
      let a := if (0 <=? e)%Z then Z.pos m * 2 ^ e else Z.pos m / 2 ^ (- e) in
      Some (if sgn then - a else a)
  | _ => None
  end.

(** ** What the interpreter and its libraries provide

    The functions of [hmac]/[hashlib], of Python's [str] and [int] and of
    pandas' parsers that the pipeline calls but does not define. *)
Class Runtime : Type := {
  (** [hmac.new(key, msg, hashlib.sha256).digest()] *)
  hmac_sha256 : list Byte.byte -> list Byte.byte -> list Byte.byte;
  (** [str(x)] for a float and for a Timestamp *)
  str_float : float -> string;
  str_timestamp : Z -> string;
  (** [int(s)] for a string; [None] where Python raises [ValueError] *)
  int_of_str : string -> option Z;
  (** what [pd.to_numeric] reads a string as; [None] when it cannot *)
  parse_number : string -> option number;
  (** what [pd.to_datetime] reads a string as, given the column it stands in
      (pandas infers one format per column); [None] when it cannot *)
  parse_datetime : Series -> string -> option Z;
}.

(** ** Exceptions and the state monad of the embedding *)

Inductive exn : Type :=
  | KeyError (key : string)
  | ValueError (msg : string)
  | TypeError (msg : string)
  | ProgrammingError (msg : string)   (* psycopg2: the INSERT names an unknown column *)
  | DanglingReference.                (* a reference to no object: no run raises it *)

Inductive res (A : Type) : Type :=
  | Ok (a : A)
  | Raise (e : exn).
Arguments Ok {A} a.
Arguments Raise {A} e.

(** A statement that runs on a state [S]: it ends normally with a result or
    raises, and in both cases leaves a state behind. *)
Definition ST (S A : Type) : Type := S -> res A * S.

Definition st_ret {S A} (a : A) : ST S A := fun s => (Ok a, s).

Definition st_bind {S A B} (m : ST S A) (k : A -> ST S B) : ST S B :=
  fun s => match m s with
           | (Ok a, s') => k a s'
           | (Raise e, s') => (Raise e, s')
           end.

Definition get {S} : ST S S := fun s => (Ok s, s).
Definition modify {S} (f : S -> S) : ST S unit := fun s => (Ok tt, f s).

(** A pure computation that may raise, run as a statement. *)
Definition lift {S A} (r : res A) : ST S A := fun s => (r, s).

Declare Scope st_scope.
Delimit Scope st_scope with st.
Notation "x <- m ;; k" := (st_bind m (fun x => k))
  (at level 100, m at next level, right associativity) : st_scope.
Notation "m ;;; k" := (st_bind m (fun _ => k))
  (at level 100, right associativity) : st_scope.
Local Open Scope st_scope.

(** [for x in xs: body(x)] *)
Fixpoint for_each {S A} (xs : list A) (body : A -> ST S unit) : ST S unit :=
  match xs with
  | [] => st_ret tt
  | x :: xs' => body x ;;; for_each xs' body
  end.

(** [if c: body] *)
Definition when {S} (c : bool) (body : ST S unit) : ST S unit :=
  if c then body else st_ret tt.

(** ** Series *)

Section SeriesOps.
Context `{Runtime}.

(** [str(x)] *)
Definition py_str (v : value) : string :=
  match v with
  | VNone => "None"
  | VNaT => "NaT"
  | VStr s => s
  | VInt z => pretty z
  | VFloat f => str_float f
  | VTime t => str_timestamp t
  end.

(** [s.encode("utf-8")]: strings are kept as their UTF-8 bytes. *)
Definition encode_utf8 (s : string) : list Byte.byte := String.list_byte_of_string s.

(** [Series.fillna(value)]: pandas (up to 2.x) refuses the fill value
    [None] before it looks at the cells. *)
Definition fillna (s : Series) (val : value) : res Series :=
  match val with
  | VNone => Raise (ValueError "Must specify a fill 'value' or 'method'.")
  | _ => Ok (map (fun c => if isna c then val else c) s)
  end.

(** [Series.astype(str)] *)
Definition astype_str (s : Series) : list string := map py_str s.

(** [a + sep + b] on two string Series of one frame *)
Definition str_join (a : list string) (sep : string) (b : list string) : list string :=
  zip_with (fun x y => x +:+ sep +:+ y) a b.

(** One cell of [pd.to_numeric(_, errors="coerce")]. *)
Definition to_numeric_cell (c : value) : value :=
  match c with
  | VNone | VNaT => VFloat PrimFloat.nan
  | VStr s => match parse_number s with
              | Some n => value_of_number n
              | None => VFloat PrimFloat.nan
              end
  | VInt z => VInt z
  | VFloat f => VFloat f
  | VTime t => VInt t
  end.

Definition to_numeric_coerce (s : Series) : Series := map to_numeric_cell s.

(** One cell of [pd.to_datetime(col, errors="coerce")]. *)
Definition to_datetime_cell (col : Series) (c : value) : value :=
  match c with
  | VNone | VNaT => VNaT
  | VStr s => match parse_datetime col s with
              | Some t => VTime t
              | None => VNaT
              end
  | VInt z => VTime z
  | VFloat f => match float_to_Z f with
                | Some z => VTime z
                | None => VNaT
                end
  | VTime t => VTime t
  end.

Definition to_datetime_coerce (s : Series) : Series := map (to_datetime_cell s) s.

(** [pd.to_datetime(x)] on a scalar, with the default [errors="raise"]:
    [None] is handed back as it is. *)
Definition to_datetime_scalar (x : value) : res value :=
  match x with
  | VNone => Ok VNone
  | VStr s => match parse_datetime [x] s with
              | Some t => Ok (VTime t)
              | None => Raise (ValueError "Unknown datetime string format")
              end
  | _ => Ok (to_datetime_cell [x] x)
  end.

(** One cell of [Series.astype(int)]. *)
Definition astype_int_cell (c : value) : res value :=
  match c with
  | VInt z => Ok (VInt z)
  | VFloat f => match float_to_Z f with
                | Some z => Ok (VInt z)
                | None => Raise (ValueError "Cannot convert non-finite values (NA or inf) to integer")
                end
  | VStr s => match int_of_str s with
              | Some z => Ok (VInt z)
              | None => Raise (ValueError "invalid literal for int()")
              end
  | VNone | VNaT | VTime _ => Raise (TypeError "int() argument must be a string or a real number")
  end.

Fixpoint astype_int (s : Series) : res Series :=
  match s with
  | [] => Ok []
  | c :: s' =>
      match astype_int_cell c with
      | Raise e => Raise e
      | Ok c' => match astype_int s' with
                 | Raise e => Raise e
                 | Ok r => Ok (c' :: r)
                 end
      end
  end.

End SeriesOps.

(** ** DataFrames *)

(** A DataFrame: its index length and its columns in order. A column
    assigned with [df[c] = ...] keeps its place when [c] exists and goes to
    the end when it does not. *)
Record DataFrame : Type := {
  nrows : nat;
  columns : list (string * Series);
}.

Definition column_names (d : DataFrame) : list string := (columns d).*1.

(** The invariant pandas keeps: column labels are distinct (they come from a
    relational table) and every column is as long as the index. *)
Definition wf_frame (d : DataFrame) : Prop :=
  NoDup (column_names d) /\ Forall (fun cs => length cs.2 = nrows d) (columns d).

Fixpoint assoc {A} (k : string) (l : list (string * A)) : option A :=
  match l with
  | [] => None
  | (k', a) :: l' => if String.eqb k k' then Some a else assoc k l'
  end.

Fixpoint assoc_set {A} (k : string) (a : A) (l : list (string * A)) : list (string * A) :=
  match l with
  | [] => [(k, a)]
  | (k', a') :: l' =>
      if String.eqb k k' then (k, a) :: l' else (k', a') :: assoc_set k a l'
  end.

(** [d.get(k)] on a dict of scalars: [None] for a key that is not there. *)
Definition dict_get (d : list (string * value)) (k : string) : value :=
  default VNone (assoc k d).

(** [c in df.columns] *)
Definition contains (c : string) : ST DataFrame bool :=
  fun d => (Ok (bool_decide (is_Some (assoc c (columns d)))), d).

(** [df[c]] *)
Definition getitem (c : string) : ST DataFrame Series :=
  fun d => match assoc c (columns d) with
           | Some s => (Ok s, d)
           | None => (Raise (KeyError c), d)
           end.

(** [df[c] = s] for a Series [s] of the frame's length *)
Definition setitem (c : string) (s : Series) : ST DataFrame unit :=
  fun d => if bool_decide (length s = nrows d)
           then (Ok tt, {| nrows := nrows d; columns := assoc_set c s (columns d) |})
           else (Raise (ValueError "Length of values does not match length of index"), d).

(** [df[c] = v] for a scalar [v]: one copy per row *)
Definition setitem_scalar (c : string) (v : value) : ST DataFrame unit :=
  fun d =>
    (Ok tt,
     {| nrows := nrows d; columns := assoc_set c (replicate (nrows d) v) (columns d) |}).

(** [df.empty]: no rows or no columns *)
Definition empty_frame (d : DataFrame) : bool :=
  bool_decide (nrows d = 0%nat) || bool_decide (columns d = []).

(** [df[cols]]: a new frame with these columns, in this order *)
Fixpoint select_columns (cols : list string) (d : DataFrame) : res (list (string * Series)) :=
  match cols with
  | [] => Ok []
  | c :: cols' =>
      match assoc c (columns d) with
      | None => Raise (KeyError c)
      | Some s => match select_columns cols' d with
                  | Raise e => Raise e
                  | Ok r => Ok ((c, s) :: r)
                  end
      end
  end.

Definition select (cols : list string) (d : DataFrame) : res DataFrame :=
  match select_columns cols d with
  | Raise e => Raise e
  | Ok r => Ok {| nrows := nrows d; columns := r |}
  end.

(** [df.where(pd.notnull(df), None)]: a new frame, every null cell [None] *)
Definition where_notnull_none (d : DataFrame) : DataFrame :=
  {| nrows := nrows d;
     columns := map (fun cs => (cs.1, map (fun v => if notna v then v else VNone) cs.2)) (columns d) |}.

(** [df.to_dict(orient='records')]: one dict per row *)
Definition to_records (d : DataFrame) : list (list (string * value)) :=
  map (fun i => map (fun cs => (cs.1, default VNone (cs.2 !! i))) (columns d)) (seq 0 (nrows d)).

(** ** The world a run executes in *)

Definition loc : Type := nat.

(** One row of [analytics.pipeline_metrics]. *)
Record Metric : Type := {
  run_id : string;
  run_time : Z;
  stage : string;
  rows_processed : nat;
  notes : string;
}.

Record World : Type := {
  (** the DataFrame objects of the process, by reference *)
  heap : gmap loc DataFrame;
  (** the file system: a path that exists, with what [pd.read_csv] reads there *)
  files : gmap string DataFrame;
  (** Postgres: the staging table [raw_input] *)
  raw_input : DataFrame;
  (** ClickHouse: the batches inserted into [processed_records], oldest first *)
  processed_records : list DataFrame;
  (** ClickHouse: [pipeline_metrics], oldest first *)
  pipeline_metrics : list Metric;
  stdout : list string;
  stderr : list string;
  (** [uuid.uuid4()]: the identifiers the generator hands out, and how many were drawn *)
  uuid_source : nat -> string;
  uuid_drawn : nat;
  (** [datetime.utcnow()]: the successive readings, and how many were taken *)
  clock : nat -> Z;
  clock_reads : nat;
}.

Definition set_heap (f : gmap loc DataFrame -> gmap loc DataFrame) (w : World) : World :=
  {| heap := f (heap w); files := files w; raw_input := raw_input w;
     processed_records := processed_records w; pipeline_metrics := pipeline_metrics w;
     stdout := stdout w; stderr := stderr w; uuid_source := uuid_source w;
     uuid_drawn := uuid_drawn w; clock := clock w; clock_reads := clock_reads w |}.

Definition set_raw_input (t : DataFrame) (w : World) : World :=
  {| heap := heap w; files := files w; raw_input := t;
     processed_records := processed_records w; pipeline_metrics := pipeline_metrics w;
     stdout := stdout w; stderr := stderr w; uuid_source := uuid_source w;
     uuid_drawn := uuid_drawn w; clock := clock w; clock_reads := clock_reads w |}.

Definition add_processed (b : DataFrame) (w : World) : World :=
  {| heap := heap w; files := files w; raw_input := raw_input w;
     processed_records := processed_records w ++ [b]; pipeline_metrics := pipeline_metrics w;
     stdout := stdout w; stderr := stderr w; uuid_source := uuid_source w;
     uuid_drawn := uuid_drawn w; clock := clock w; clock_reads := clock_reads w |}.

Definition add_metric (m : Metric) (w : World) : World :=
  {| heap := heap w; files := files w; raw_input := raw_input w;
     processed_records := processed_records w; pipeline_metrics := pipeline_metrics w ++ [m];
     stdout := stdout w; stderr := stderr w; uuid_source := uuid_source w;
     uuid_drawn := uuid_drawn w; clock := clock w; clock_reads := clock_reads w |}.

Definition add_stdout (line : string) (w : World) : World :=
  {| heap := heap w; files := files w; raw_input := raw_input w;
     processed_records := processed_records w; pipeline_metrics := pipeline_metrics w;
     stdout := stdout w ++ [line]; stderr := stderr w; uuid_source := uuid_source w;
     uuid_drawn := uuid_drawn w; clock := clock w; clock_reads := clock_reads w |}.

Definition add_stderr (line : string) (w : World) : World :=
  {| heap := heap w; files := files w; raw_input := raw_input w;
     processed_records := processed_records w; pipeline_metrics := pipeline_metrics w;
     stdout := stdout w; stderr := stderr w ++ [line]; uuid_source := uuid_source w;
     uuid_drawn := uuid_drawn w; clock := clock w; clock_reads := clock_reads w |}.

Definition draw_uuid (w : World) : World :=
  {| heap := heap w; files := files w; raw_input := raw_input w;
     processed_records := processed_records w; pipeline_metrics := pipeline_metrics w;
     stdout := stdout w; stderr := stderr w; uuid_source := uuid_source w;
     uuid_drawn := S (uuid_drawn w); clock := clock w; clock_reads := clock_reads w |}.

Definition read_clock (w : World) : World :=
  {| heap := heap w; files := files w; raw_input := raw_input w;
     processed_records := processed_records w; pipeline_metrics := pipeline_metrics w;
     stdout := stdout w; stderr := stderr w; uuid_source := uuid_source w;
     uuid_drawn := uuid_drawn w; clock := clock w; clock_reads := S (clock_reads w) |}.

(** A new DataFrame object: a reference no object has yet. *)
Definition alloc (d : DataFrame) : ST World loc :=
  fun w => let l := fresh (dom (heap w)) in (Ok l, set_heap <[l := d]> w).

(** Statements on the DataFrame a reference points to: what they do to the
    frame is seen through every copy of the reference. *)
Definition on_frame {A} (l : loc) (m : ST DataFrame A) : ST World A :=
  fun w => match heap w !! l with
           | None => (Raise DanglingReference, w)
           | Some d => let '(r, d') := m d in (r, set_heap <[l := d']> w)
           end.

(** [print(line)] and [print(line, file=sys.stderr)] *)
Definition print (line : string) : ST World unit := modify (add_stdout line).
Definition print_err (line : string) : ST World unit := modify (add_stderr line).

(** [str(uuid.uuid4())] *)
Definition uuid4 : ST World string :=
  fun w => (Ok (uuid_source w (uuid_drawn w)), draw_uuid w).

(** [datetime.utcnow()] *)
Definition utcnow : ST World Z :=
  fun w => (Ok (clock w (clock_reads w)), read_clock w).

(** ** Module-level configuration *)

(** The YAML file [/opt/etl/config.yml] as [yaml.safe_load] returns it (the
    two keys the module reads) and the process environment. A mapping that
    is iterated in order, the policy, is an association list. *)
Class Deployment : Type := {
  cfg_defaults : option (list (string * value));
  cfg_anonymization : option (gmap string string);
  environ : gmap string string;
}.

Section Pipeline.
Context `{Runtime} `{Deployment}.

Definition DEFAULTS : list (string * value) := default [] cfg_defaults.
Definition ANON : gmap string string := default ∅ cfg_anonymization.

Definition HMAC_KEY : list Byte.byte :=
  encode_utf8
    (default "default-insecure-key" (environ !! default "PII_HMAC_KEY" (ANON !! "hmac_key_env"))).

Definition INPUT_CSV : string :=
  default "/data/green_tripdata_sample.csv" (environ !! "INPUT_CSV").

(** [bytes.hex()]: two lowercase hexadecimal digits per byte *)
Definition hex_digit (n : N) : Ascii.ascii :=
  if (n <? 10)%N then Ascii.ascii_of_N (48 + n) else Ascii.ascii_of_N (87 + n).

Fixpoint hex (bs : list Byte.byte) : string :=
  match bs with
  | [] => ""
  | b :: bs' =>
      let n := Byte.to_N b in
      String (hex_digit (n / 16)) (String (hex_digit (n mod 16)) (hex bs'))
  end.

(** [hmac_hash(value)]: [None] for a null value, else the hexadecimal
    digest of HMAC-SHA256 under [HMAC_KEY] over [str(value)]. *)
Definition hmac_hash (v : value) : value :=
  if isna v || is_None v then VNone
  else VStr (hex (hmac_sha256 HMAC_KEY (encode_utf8 (py_str v)))).

(** *** The imputer and the normalizer *)

(** The loop of [fill_defaults], on the frame [df] refers to. *)
Definition fill_defaults_body (defaults : list (string * value)) : ST DataFrame unit :=
  for_each defaults (fun '(col, val) =>
    b <- contains col ;;
    if b then
      s <- getitem col ;;
      s' <- lift (fillna s val) ;;
      setitem col s'
    else
      setitem_scalar col val).

(** [fill_defaults(df, defaults)]: the frame is filled in place and the
    reference that came in is the one that goes out. *)
Definition fill_defaults (df : loc) (defaults : list (string * value)) : ST World loc :=
  on_frame df (fill_defaults_body defaults) ;;;
  st_ret df.

(** [df[c] = f(df[c])] under [if c in df.columns] *)
Definition update_if_present (c : string) (f : Series -> res Series) : ST DataFrame unit :=
  b <- contains c ;;
  when b
    (s <- getitem c ;;
     s' <- lift (f s) ;;
     setitem c s').

(** [pd.to_datetime(s, errors="coerce").fillna(pd.to_datetime(DEFAULTS.get(c)))] *)
Definition parse_datetimes (c : string) (s : Series) : res Series :=
  let parsed := to_datetime_coerce s in
  match to_datetime_scalar (dict_get DEFAULTS c) with
  | Raise e => Raise e
  | Ok d => fillna parsed d
  end.

(** [pd.to_numeric(s, errors="coerce").fillna(DEFAULTS.get(c))] *)
Definition coerce_numeric (c : string) (s : Series) : res Series :=
  fillna (to_numeric_coerce s) (dict_get DEFAULTS c).

(** [coerce_numeric] followed by [.astype(int)] *)
Definition coerce_int (c : string) (s : Series) : res Series :=
  match coerce_numeric c s with
  | Raise e => Raise e
  | Ok s' => astype_int s'
  end.

(** The identity column: synthesized from two columns when the frame has
    none, rehashed cell by cell when it has one. *)
Definition derive_id : ST DataFrame unit :=
  has_id <- contains "id" ;;
  if negb has_id then
    p <- getitem "pickup_datetime" ;;
    t <- getitem "trip_distance" ;;
    setitem "id"
      (map (fun x => hmac_hash (VStr x)) (str_join (astype_str p) "|" (astype_str t)))
  else
    i <- getitem "id" ;;
    setitem "id" (map (fun x => if notna x then hmac_hash x else VNone) i).

(** The statements of [transform_df] after the call of [fill_defaults]. *)
Definition transform_df_body : ST DataFrame unit :=
  (* create deterministic id if none exists *)
  derive_id ;;;
  (* parse datetimes *)
  for_each ["pickup_datetime"; "dropoff_datetime"] (fun c =>
    update_if_present c (parse_datetimes c)) ;;;
  (* coerce numeric *)
  update_if_present "trip_distance" (coerce_numeric "trip_distance") ;;;
  update_if_present "passenger_count" (coerce_int "passenger_count") ;;;
  update_if_present "fare_amount" (coerce_numeric "fare_amount").

(** [transform_df(df)]: the frame is transformed in place and the
    reference that came in is the one that goes out. *)
Definition transform_df (df : loc) : ST World loc :=
  df <- fill_defaults df DEFAULTS ;;
  on_frame df transform_df_body ;;;
  st_ret df.

(** *** The staging store (Postgres) *)

(** [INSERT INTO raw_input (cols) VALUES rows]: the statement names columns
    of the table, each once; a column it does not name gets NULL. *)
Definition pg_insert (cols : list string) (rows : list (list value)) (t : DataFrame)
  : res DataFrame :=
  if bool_decide (cols = []) then Raise (ProgrammingError "syntax error")
  else if negb (forallb (fun c => bool_decide (is_Some (assoc c (columns t)))) cols)
  then Raise (ProgrammingError "column of relation raw_input does not exist")
  else if negb (bool_decide (NoDup cols))
  then Raise (ProgrammingError "column specified more than once")
  else
    Ok {| nrows := (nrows t + length rows)%nat;
          columns :=
            map (fun cs =>
                   (cs.1, cs.2 ++ map (fun row => dict_get (zip cols row) cs.1) rows))
                (columns t) |}.

(** [ingest_csv_to_postgres(csv_path)]: the number of rows read, [0] when
    there is no such file. *)
Definition ingest_csv_to_postgres (csv_path : string) : ST World nat :=
  fs <- get ;;
  match files fs !! csv_path with
  | None =>
      print_err ("CSV not found at " +:+ csv_path) ;;;
      st_ret 0%nat
  | Some csv =>
      df <- alloc csv ;;
      d <- on_frame df get ;;
      let records := to_records (where_notnull_none d) in
      let cols := column_names d in
      let values := map (fun r => map (fun c => dict_get r c) cols) records in
      when (negb (bool_decide (values = [])))
        (w <- get ;;
         t <- lift (pg_insert cols values (raw_input w)) ;;
         modify (set_raw_input t) ;;;
         print ("Inserted " +:+ pretty (length values) +:+ " rows into raw_input")) ;;;
      st_ret (length values)
  end.

(** [pd.read_sql("SELECT * FROM raw_input", conn)]: a new frame *)
Definition read_from_postgres : ST World loc :=
  w <- get ;;
  alloc (raw_input w).

(** [TRUNCATE TABLE raw_input]: the rows go, the columns stay *)
Definition clear_staging_table : ST World unit :=
  modify (fun w =>
    set_raw_input
      {| nrows := 0; columns := map (fun cs => (cs.1, [])) (columns (raw_input w)) |} w).

(** *** The analytical store (ClickHouse) *)

(** [write_to_clickhouse(df)], for the table [processed_records]: nothing
    is sent for an empty frame. *)
Definition write_to_clickhouse (df : loc) : ST World nat :=
  d <- on_frame df get ;;
  if empty_frame d then st_ret 0%nat
  else
    df <- alloc (where_notnull_none d) ;;
    d <- on_frame df get ;;
    modify (add_processed d) ;;;
    st_ret (nrows d).

(** [write_metric(run_id, stage, rows, notes)]: one row more in
    [pipeline_metrics], stamped with the time of the call. *)
Definition write_metric (run_id stage : string) (rows : nat) (notes : string) : ST World unit :=
  now <- utcnow ;;
  modify (add_metric {| run_id := run_id; run_time := now; stage := stage;
                        rows_processed := rows; notes := notes |}).

(** *** The run controller *)

(** The value of [--mode] after [argparse]. *)
Inductive Mode : Type := ModeIngest | ModeTransform | ModeFull | ModeClear.

Definition mode_in_ingest_full (m : Mode) : bool :=
  match m with ModeIngest | ModeFull => true | _ => false end.
Definition mode_in_transform_full (m : Mode) : bool :=
  match m with ModeTransform | ModeFull => true | _ => false end.
Definition mode_is_clear (m : Mode) : bool :=
  match m with ModeClear => true | _ => false end.

Definition target_cols : list string :=
  ["id"; "pickup_datetime"; "dropoff_datetime"; "passenger_count"; "trip_distance";
   "rate_code"; "store_and_fwd"; "payment_type"; "fare_amount"].

(** [for c in target_cols: if c not in df_t.columns: df_t[c] = None] *)
Definition ensure_target_cols : ST DataFrame unit :=
  for_each target_cols (fun c =>
    b <- contains c ;;
    when (negb b) (setitem_scalar c VNone)).

(** The [transform] arm of [main]; its result tells whether [main] returned
    from inside it. *)
Definition main_transform (run_id : string) : ST World bool :=
  df <- read_from_postgres ;;
  d <- on_frame df get ;;
  if empty_frame d then
    print "No data in staging; skipping transform." ;;;
    write_metric run_id "transform" 0 "no rows" ;;;
    st_ret true
  else
    df_t <- transform_df df ;;
    on_frame df_t ensure_target_cols ;;;
    d_t <- on_frame df_t get ;;
    sel <- lift (select target_cols d_t) ;;
    out <- alloc sel ;;
    rows <- write_to_clickhouse out ;;
    write_metric run_id "transform" rows "Postgres -> ClickHouse" ;;;
    print ("Wrote " +:+ pretty rows +:+ " rows to ClickHouse.") ;;;
    st_ret false.

(** [main()], given the mode its arguments select. *)
Definition main (mode : Mode) : ST World unit :=
  run_id <- uuid4 ;;
  when (mode_in_ingest_full mode)
    (n <- ingest_csv_to_postgres INPUT_CSV ;;
     write_metric run_id "ingest" n "CSV -> Postgres") ;;;
  returned <- (if mode_in_transform_full mode then main_transform run_id else st_ret false) ;;
  if returned : bool then st_ret tt
  else
    when (mode_is_clear mode)
      (clear_staging_table ;;;
       print "Staging table cleared.") ;;;
    print "Done.".

End Pipeline.

(** * Vocabulary of the statements proved below *)

Section Vocabulary.
Context `{Runtime} `{Deployment}.

(** A property of the state that a statement keeps, however it ends. *)
Definition stable {S A} (I : S -> Prop) (m : ST S A) : Prop :=
  forall s, I s -> I (m s).2.

(** The frame after [df[c] = s]. *)
Definition with_column (c : string) (s : Series) (d : DataFrame) : DataFrame :=
  {| nrows := nrows d; columns := assoc_set c s (columns d) |}.

(** A property of frames that assignments to column [c] keep. *)
Definition writable (c : string) (I : DataFrame -> Prop) : Prop :=
  forall d s, I d -> I (with_column c s d).

(** Row [i] of column [c] holds [x]. *)
Definition cell (c : string) (i : nat) (x : value) (d : DataFrame) : Prop :=
  exists s, assoc c (columns d) = Some s /\ s !! i = Some x.

(** One round of the loop of [fill_defaults]. *)
Definition fill_one (col : string) (val : value) : ST DataFrame unit :=
  b <- contains col ;;
  if b then
    s <- getitem col ;;
    s' <- lift (fillna s val) ;;
    setitem col s'
  else
    setitem_scalar col val.

(** The columns [transform_df] assigns after the default fill. *)
Definition normalized_cols : list string :=
  ["id"; "pickup_datetime"; "dropoff_datetime"; "trip_distance"; "passenger_count"; "fare_amount"].

(** The cells of a column after [fillna(v)]. *)
Definition fill_cells (v : value) (s : Series) : Series :=
  map (fun x => if isna x then v else x) s.

(** What the default fill leaves in column [c] of [d] under policy [p]. *)
Definition filled_column (p : list (string * value)) (d : DataFrame) (c : string)
  : option Series :=
  match assoc c p with
  | Some v =>
      Some (match assoc c (columns d) with
            | Some s => fill_cells v s
            | None => replicate (nrows d) v
            end)
  | None => assoc c (columns d)
  end.

(** After [derive_id], nothing in [transform_df] assigns the [id] column. *)
Definition normalize_rest : ST DataFrame unit :=
  for_each ["pickup_datetime"; "dropoff_datetime"] (fun c =>
    update_if_present c (parse_datetimes c)) ;;;
  update_if_present "trip_distance" (coerce_numeric "trip_distance") ;;;
  update_if_present "passenger_count" (coerce_int "passenger_count") ;;;
  update_if_present "fare_amount" (coerce_numeric "fare_amount").

(** What [transform_df] does to the frame it is handed. *)
Definition transform_frame : ST DataFrame unit :=
  fill_defaults_body DEFAULTS ;;; transform_df_body.

(** The batch [main] hands to ClickHouse for the frame [transform_df] left:
    the missing contract columns added, the contract selected, nulls as
    [None]. *)
Definition project (d : DataFrame) : res DataFrame :=
  match ensure_target_cols d with
  | (Raise e, _) => Raise e
  | (Ok _, d') =>
      match select target_cols d' with
      | Raise e => Raise e
      | Ok sel => Ok (where_notnull_none sel)
      end
  end.

(** The batch a run writes for the staged frame [d], or the exception that
    ends the run. *)
Definition batch_of (d : DataFrame) : res DataFrame :=
  match transform_frame d with
  | (Raise e, _) => Raise e
  | (Ok _, d') => project d'
  end.

(** The identifier a run that starts in [w] draws. *)
Definition run_id_of (w : World) : string := uuid_source w (uuid_drawn w).

Definition transform_metric (rid : string) (w : World) (rows : nat) (note : string) : Metric :=
  {| run_id := rid; run_time := clock w (clock_reads w); stage := "transform";
     rows_processed := rows; notes := note |}.

Definition ingest_metric (rid : string) (w : World) (rows : nat) : Metric :=
  {| run_id := rid; run_time := clock w (clock_reads w); stage := "ingest";
     rows_processed := rows; notes := "CSV -> Postgres" |}.

(** What no statement on frames and neither store adapter of the staging
    side touches: ClickHouse, the identifier source and the clock. *)
Definition bookkeeping (w : World) :
  list DataFrame * list Metric * (nat -> string) * nat * (nat -> Z) * nat :=
  (processed_records w, pipeline_metrics w, uuid_source w, uuid_drawn w, clock w, clock_reads w).

(** How [main] goes on after its transform arm. *)
Definition after_transform (out : res bool * World) : res unit * World :=
  match out with
  | (Ok true, w1) => (Ok tt, w1)
  | (Ok false, w1) => (Ok tt, add_stdout "Done." w1)
  | (Raise e, w1) => (Raise e, w1)
  end.

(** The three ways the transform arm can go. *)
Inductive transform_outcome (rid : string) (w : World) : res bool * World -> Prop :=
  | transform_skipped h :
      empty_frame (raw_input w) = true ->
      transform_outcome rid w
        (Ok true,
         set_heap (fun _ => h)
           (add_metric (transform_metric rid w 0 "no rows")
              (read_clock (add_stdout "No data in staging; skipping transform." w))))
  | transform_failed h e :
      empty_frame (raw_input w) = false ->
      batch_of (raw_input w) = Raise e ->
      transform_outcome rid w (Raise e, set_heap (fun _ => h) w)
  | transform_written h b :
      empty_frame (raw_input w) = false ->
      batch_of (raw_input w) = Ok b ->
      transform_outcome rid w
        (Ok false,
         set_heap (fun _ => h)
           (add_stdout ("Wrote " +:+ pretty (nrows (raw_input w)) +:+ " rows to ClickHouse.")
              (add_metric (transform_metric rid w (nrows (raw_input w)) "Postgres -> ClickHouse")
                 (read_clock (add_processed b w))))).



(** The batches a transform stage writes for the staged frame [d]. *)
Definition written (d : DataFrame) : list DataFrame :=
  if empty_frame d then []
  else match batch_of d with Ok b => [b] | Raise _ => [] end.

(** How a transform stage ends on the staged frame [d]. *)
Definition ending (d : DataFrame) : res unit :=
  if empty_frame d then Ok tt
  else match batch_of d with Ok _ => Ok tt | Raise e => Raise e end.

(** A policy that gives every column [transform_df] normalizes a default it
    can use: distinct keys, no [None], a readable timestamp for the two
    datetime columns, a value for the two float columns and an integer for
    [passenger_count]. *)
Definition complete_policy : Prop :=
  NoDup DEFAULTS.*1 /\
  (forall c v, (c, v) ∈ DEFAULTS -> v <> VNone) /\
  (forall c, c ∈ ["pickup_datetime"; "dropoff_datetime"] ->
     exists v, to_datetime_scalar (dict_get DEFAULTS c) = Ok v /\ v <> VNone) /\
  (forall c, c ∈ ["trip_distance"; "fare_amount"] -> dict_get DEFAULTS c <> VNone) /\
  (exists z, dict_get DEFAULTS "passenger_count" = VInt z).

(** A cell [pd.to_numeric] reads as an integer, as a finite float or not at
    all: anything but an infinity. *)
Definition countable (x : value) : Prop :=
  forall f, to_numeric_cell x = VFloat f -> PrimFloat.is_nan f = false ->
            is_Some (float_to_Z f).

Definition is_lower_hex (a : Ascii.ascii) : bool :=
  let n := Ascii.N_of_ascii a in
  ((48 <=? n) && (n <=? 57) || (97 <=? n) && (n <=? 102))%N.

End Vocabulary.

(** * Vocabulary of the staging side, of the normalized columns and of runs *)

(** The rows [ingest_csv_to_postgres] sends for the frame [pd.read_csv]
    returned: its [values]. *)
Definition csv_values (csv : DataFrame) : list (list value) :=
  map (fun r => map (fun c => dict_get r c) (column_names csv))
      (to_records (where_notnull_none csv)).

(** What ingest prints after the INSERT. *)
Definition inserted_notice (n : nat) : string :=
  "Inserted " +:+ pretty n +:+ " rows into raw_input".

(** The staging table after [TRUNCATE TABLE raw_input]. *)
Definition truncated (t : DataFrame) : DataFrame :=
  {| nrows := 0; columns := map (fun cs => (cs.1, [])) (columns t) |}.

(** An [int], or a [float] that is not [nan]. *)
Definition is_number (x : value) : bool :=
  match x with
  | VInt _ => true
  | VFloat f => negb (PrimFloat.is_nan f)
  | _ => false
  end.

Definition is_int (x : value) : bool :=
  match x with VInt _ => true | _ => false end.

Definition is_timestamp (x : value) : bool :=
  match x with VTime _ => true | _ => false end.

(** The contract columns [transform_df] does not assign. *)
Definition passthrough_cols : list string := ["rate_code"; "store_and_fwd"; "payment_type"].

(** What a metric says apart from the run it belongs to. *)
Definition metric_facts (m : Metric) : Z * string * nat * string :=
  (run_time m, stage m, rows_processed m, notes m).

(** * The Airflow DAG [csv_to_clickhouse_elt] of [airflow/dags/csv_elt_dag.py] *)

(** One run of the DAG on the world of the pipeline: each task starts the
    script in a process of its own, a task that fails is tried again as
    [default_args] says, and [transform] waits for [ingest] to succeed.
    The schedule, and with it [catchup] and [max_active_runs], is outside
    one run. *)
Module csv_elt_dag.
Section Dag.
Context `{Runtime} `{Deployment}.

(** [default_args["retries"]] *)
Definition retries : nat := 1.

(** [BashOperator(bash_command="python /opt/etl/etl.py --mode m")]: a new
    interpreter, with no DataFrame in memory, runs [main]; the try fails
    when the process ends with an exception. *)
Definition BashOperator (mode : Mode) : ST World unit :=
  fun w => main mode (set_heap (fun _ => ∅) w).

(** A task instance: a try that fails is repeated while retries are left. *)
Fixpoint task_instance (retries_left : nat) (try : ST World unit) : ST World unit :=
  fun w =>
    match try w with
    | (Ok r, w') => (Ok r, w')
    | (Raise e, w') =>
        match retries_left with
        | O => (Raise e, w')
        | S n => task_instance n try w'
        end
    end.

Definition ingest : ST World unit := task_instance retries (BashOperator ModeIngest).
Definition transform : ST World unit := task_instance retries (BashOperator ModeTransform).

(** One DAG run, [ingest >> transform]: the downstream task starts when the
    upstream task has succeeded. *)
Definition dag_run : ST World unit := ingest ;;; transform.

End Dag.
End csv_elt_dag.

(** * Worked inputs *)

(** A runtime to run the pipeline on: HMAC-SHA256 as RFC 2104 and FIPS 180-4
    define it, [str] of timestamps and of floats with a short decimal
    expansion, and parsers that read integer literals and the one timestamp
    literal of the scenario. *)

Module HmacSha256.

Definition word (z : Z) : Z := z mod 2 ^ 32.

Definition rotr (n x : Z) : Z := word (Z.lor (Z.shiftr x n) (Z.shiftl x (32 - n))).

Definition choose (x y z : Z) : Z :=
  Z.lxor (Z.land x y) (Z.land (Z.lxor x (2 ^ 32 - 1)) z).

Definition majority (x y z : Z) : Z :=
  Z.lxor (Z.lxor (Z.land x y) (Z.land x z)) (Z.land y z).

Definition big_sigma0 (x : Z) : Z := Z.lxor (Z.lxor (rotr 2 x) (rotr 13 x)) (rotr 22 x).
Definition big_sigma1 (x : Z) : Z := Z.lxor (Z.lxor (rotr 6 x) (rotr 11 x)) (rotr 25 x).
Definition small_sigma0 (x : Z) : Z := Z.lxor (Z.lxor (rotr 7 x) (rotr 18 x)) (Z.shiftr x 3).
Definition small_sigma1 (x : Z) : Z := Z.lxor (Z.lxor (rotr 17 x) (rotr 19 x)) (Z.shiftr x 10).

(** The first 64 primes, from which the standard derives its constants. *)
Definition is_prime (n : nat) : bool :=
  forallb (fun k => negb (Nat.eqb (n mod k) 0)) (seq 2 (n - 2)).

Definition primes : list Z :=
  Eval vm_compute in map Z.of_nat (take 64 (filter (fun n => is_prime n = true) (seq 2 400))).

(** The largest [r] below [2 ^ bits] whose cube is at most [n]. *)
Fixpoint cube_root (bits : nat) (n r : Z) : Z :=
  match bits with
  | O => r
  | S b => let r' := r + 2 ^ Z.of_nat b in
           cube_root b n (if (r' * r' * r' <=? n)%Z then r' else r)
  end.

(** Fractional parts of the square roots of the first 8 primes and of the
    cube roots of the first 64, 32 bits each. *)
Definition initial_hash : list Z :=
  Eval vm_compute in map (fun p => word (Z.sqrt (p * 2 ^ 64))) (take 8 primes).

Definition round_constants : list Z :=
  Eval vm_compute in map (fun p => word (cube_root 36 (p * 2 ^ 96) 0)) primes.

Definition big_endian (n : nat) (z : Z) : list Z :=
  map (fun i => Z.shiftr z (8 * Z.of_nat (n - 1 - i)) mod 256) (seq 0 n).

Definition of_big_endian (bs : list Z) : Z := fold_left (fun acc b => acc * 256 + b) bs 0.

Definition pad (msg : list Z) : list Z :=
  let len := Z.of_nat (length msg) in
  msg ++ [128] ++ replicate (Z.to_nat ((55 - len) mod 64)) 0 ++ big_endian 8 (8 * len).

Fixpoint chunks {A} (fuel size : nat) (l : list A) : list (list A) :=
  match fuel, l with
  | O, _ | _, [] => []
  | S fuel', _ => take size l :: chunks fuel' size (drop size l)
  end.

(** The message schedule, latest word first. *)
Fixpoint schedule (n : nat) (ws : list Z) : list Z :=
  match n with
  | O => ws
  | S n' =>
      let w := word (small_sigma1 (nth 1 ws 0) + nth 6 ws 0
                     + small_sigma0 (nth 14 ws 0) + nth 15 ws 0) in
      schedule n' (w :: ws)
  end.

Definition step (s : list Z) (kw : Z * Z) : list Z :=
  match s with
  | [a; b; c; d; e; f; g; h] =>
      let t1 := h + big_sigma1 e + choose e f g + kw.1 + kw.2 in
      let t2 := big_sigma0 a + majority a b c in
      [word (t1 + t2); a; b; c; word (d + t1); e; f; g]
  | _ => s
  end.

Definition compress (h : list Z) (block : list Z) : list Z :=
  let w16 := map of_big_endian (chunks 16 4 block) in
  let ws := rev (schedule 48 (rev w16)) in
  zip_with (fun x y => word (x + y)) h (fold_left step (zip round_constants ws) h).

Definition sha256_Z (msg : list Z) : list Z :=
  let padded := pad msg in
  let h := fold_left compress (chunks (length padded) 64 padded) initial_hash in
  concat (map (big_endian 4) h).

Definition to_Z (b : Byte.byte) : Z := Z.of_N (Byte.to_N b).
Definition of_Z (z : Z) : Byte.byte := default Byte.x00 (Byte.of_N (Z.to_N z)).

Definition sha256 (msg : list Byte.byte) : list Byte.byte :=
  map of_Z (sha256_Z (map to_Z msg)).

(** RFC 2104 with SHA-256: block size 64. *)
Definition hmac (key msg : list Byte.byte) : list Byte.byte :=
  let k0 := map to_Z (if (64 <? length key)%nat then sha256 key else key) in
  let k := k0 ++ replicate (64 - length k0) 0 in
  let inner := sha256_Z (map (Z.lxor 54) k ++ map to_Z msg) in
  map of_Z (sha256_Z (map (Z.lxor 92) k ++ inner)).

End HmacSha256.

(** [z] in decimal, at least [n] digits *)
Fixpoint digits (n : nat) (z : Z) : string :=
  match n with
  | O => ""
  | S n' => digits n' (z / 10) +:+ String (Ascii.ascii_of_N (48 + Z.to_N (z mod 10))) ""
  end.

(** Days since 1970-01-01 to (year, month, day) of the proleptic Gregorian
    calendar. *)
Definition civil_of_days (days : Z) : Z * Z * Z :=
  let z := days + 719468 in
  let era := z / 146097 in
  let doe := z - era * 146097 in
  let yoe := (doe - doe / 1460 + doe / 36524 - doe / 146096) / 365 in
  let doy := doe - (365 * yoe + yoe / 4 - yoe / 100) in
  let mp := (5 * doy + 2) / 153 in
  let d := doy - (153 * mp + 2) / 5 + 1 in
  let m := if (mp <? 10)%Z then mp + 3 else mp - 9 in
  let y := yoe + era * 400 + (if (m <=? 2)%Z then 1 else 0) in
  (y, m, d).

(** [str(pd.Timestamp(ns))] for a timestamp of the common era *)
Definition format_timestamp (ns : Z) : string :=
  let secs := ns / 1000000000 in
  let frac := ns mod 1000000000 in
  let '(y, m, d) := civil_of_days (secs / 86400) in
  let tod := secs mod 86400 in
  digits 4 y +:+ "-" +:+ digits 2 m +:+ "-" +:+ digits 2 d +:+ " " +:+
  digits 2 (tod / 3600) +:+ ":" +:+ digits 2 (tod mod 3600 / 60) +:+ ":" +:+ digits 2 (tod mod 60) +:+
  (if (frac =? 0)%Z then ""
   else if (frac mod 1000 =? 0)%Z then "." +:+ digits 6 (frac / 1000)
   else "." +:+ digits 9 frac).

(** Drop the zeros a decimal fraction ends in, keeping one digit. *)
Fixpoint strip_zeros (fuel : nat) (frac : Z) (len : nat) : Z * nat :=
  match fuel with
  | O => (frac, len)
  | S fuel' =>
      if (1 <? len)%nat && (frac mod 10 =? 0)%Z
      then strip_zeros fuel' (frac / 10) (len - 1)
      else (frac, len)
  end.

(** [repr] of a float whose binary value has a short decimal expansion: the
    exact expansion. (For the other floats Python prints the shortest
    decimal that reads back as the same float.) *)
Definition format_float (f : float) : string :=
  match Prim2SF f with
  | S754_zero sgn => if sgn then "-0.0" else "0.0"
  | S754_infinity sgn => if sgn then "-inf" else "inf"
  | S754_nan => "nan"
  | S754_finite sgn m e =>
      (if sgn then "-" else "") +:+
      (if (0 <=? e)%Z then pretty (Z.pos m * 2 ^ e) +:+ ".0"
       else
         let k := Z.to_nat (- e) in
         let scaled := Z.pos m * 5 ^ (- e) in
         let '(frac, len) := strip_zeros k (scaled mod 10 ^ (- e)) k in
         pretty (scaled / 10 ^ (- e)) +:+ "." +:+ digits len frac)
  end.

(** An optional sign and decimal digits. *)
Fixpoint read_digits (s : string) (acc : Z) : option Z :=
  match s with
  | "" => Some acc
  | String a s' =>
      let n := Z.of_N (Ascii.N_of_ascii a) in
      if (48 <=? n)%Z && (n <=? 57)%Z then read_digits s' (10 * acc + (n - 48)) else None
  end.

Definition read_int (s : string) : option Z :=
  match s with
  | "" => None
  | String a s' =>
      if (Ascii.N_of_ascii a =? 45)%N
      then (if String.eqb s' "" then None else Z.opp <$> read_digits s' 0)
      else read_digits s 0
  end.

Definition example_runtime : Runtime := {|
  hmac_sha256 := HmacSha256.hmac;
  str_float := format_float;
  str_timestamp := format_timestamp;
  int_of_str := read_int;
  parse_number := fun s => NInt <$> read_int s;
  parse_datetime := fun _ s =>
    if String.eqb s "2024-03-01 10:00" then Some 1709287200000000000 else None;
|}.

Definition example_deployment (policy : list (string * value)) : Deployment := {|
  cfg_defaults := Some policy;
  cfg_anonymization := None;
  environ := ∅;
|}.

(** A world whose staging table holds [staged] and in which nothing else
    has happened yet. *)
Definition example_world (staged : DataFrame) : World := {|
  heap := ∅; files := ∅; raw_input := staged;
  processed_records := []; pipeline_metrics := [];
  stdout := []; stderr := [];
  uuid_source := fun n => "run-" +:+ pretty n; uuid_drawn := 0;
  clock := fun n => Z.of_nat n; clock_reads := 0;
|}.

Definition fill_example_frame : DataFrame :=
  {| nrows := 2;
     columns := [("trip_distance", [VNone; VFloat 2.5]); ("vendor", [VStr "a"; VNone])] |}.

Definition fill_example_policy : list (string * value) :=
  [("trip_distance", VFloat 1.0); ("passenger_count", VInt 1)].

Definition caller_frame : DataFrame :=
  {| nrows := 1; columns := [("trip_distance", [VNone])] |}.

Definition caller_world : World :=
  set_heap <[7%nat := caller_frame]> (example_world caller_frame).

Definition empty_staging : DataFrame :=
  {| nrows := 0; columns := [("pickup_datetime", []); ("trip_distance", [])] |}.

(** The staged batch of the scenario: a timestamp, a distance that is not a
    number and a missing passenger count. *)
Definition scenario_frame : DataFrame :=
  {| nrows := 1;
     columns := [("pickup_datetime", [VStr "2024-03-01 10:00"]);
                 ("trip_distance", [VStr "abc"]);
                 ("passenger_count", [VNone])] |}.

(** The policy of the scenario as the specification words it, and the same
    policy with a default for the timestamp column the batch has. *)
Definition scenario_policy_as_stated : list (string * value) :=
  [("trip_distance", VFloat 1.0); ("passenger_count", VInt 1)].

Definition scenario_policy : list (string * value) :=
  ("pickup_datetime", VTime 1704067200000000000) :: scenario_policy_as_stated.

(** A policy with a default for each of the five normalized columns. *)
Definition full_policy : list (string * value) :=
  [("pickup_datetime", VTime 1704067200000000000);
   ("dropoff_datetime", VTime 1704067200000000000);
   ("trip_distance", VFloat 1.0);
   ("passenger_count", VInt 1);
   ("fare_amount", VFloat 0.5)].

Definition scenario_world : World :=
  set_heap <[0%nat := scenario_frame]> (example_world scenario_frame).



(** A staged batch without [id], [dropoff_datetime] or [rate_code], and a
    policy that names [rate_code]. *)
Definition contract_frame : DataFrame :=
  {| nrows := 1;
     columns := [("pickup_datetime", [VTime 1709287200000000000]);
                 ("trip_distance", [VFloat 1.0]);
                 ("vendor", [VStr "acme"])] |}.

Definition contract_policy : list (string * value) :=
  [("pickup_datetime", VTime 1704067200000000000); ("trip_distance", VFloat 1.0);
   ("rate_code", VInt 1)].

(** A batch whose passenger count is not a number, under a policy whose
    default for it is one half. *)
Definition half_frame : DataFrame :=
  {| nrows := 1; columns := [("id", [VStr "a"]); ("passenger_count", [VStr "abc"])] |}.

Definition half_policy : list (string * value) := [("passenger_count", VFloat 0.5)].

(** A world in which [csv] is the file at the default input path and the
    staging table holds [staged]. *)
Definition csv_world (csv staged : DataFrame) : World := {|
  heap := ∅; files := {[ "/data/green_tripdata_sample.csv" := csv ]}; raw_input := staged;
  processed_records := []; pipeline_metrics := [];
  stdout := []; stderr := [];
  uuid_source := fun n => "run-" +:+ pretty n; uuid_drawn := 0;
  clock := fun n => Z.of_nat n; clock_reads := 0;
|}.

(** A CSV of two trips, the second without a distance. *)
Definition trips_csv : DataFrame :=
  {| nrows := 2;
     columns := [("pickup_datetime", [VStr "2024-03-01 10:00"; VStr "2024-03-01 10:00"]);
                 ("trip_distance", [VFloat 2.5; VFloat PrimFloat.nan]);
                 ("rate_code", [VInt 1; VInt 2])] |}.

(** A staging table with one trip staged, and the same table without rows. *)
Definition staged_trips : DataFrame :=
  {| nrows := 1;
     columns := [("pickup_datetime", [VStr "2024-03-01 10:00"]);
                 ("trip_distance", [VFloat 1.0]);
                 ("passenger_count", [VInt 2]);
                 ("rate_code", [VInt 5])] |}.


(** A CSV that has a header and no rows. *)
Definition header_csv : DataFrame :=
  {| nrows := 0; columns := [("surprise", [])] |}.

(** A batch with neither an identifier nor a pickup time. *)
Definition distance_frame : DataFrame :=
  {| nrows := 1; columns := [("trip_distance", [VFloat 1.0])] |}.

(** * The example runtime against published digests *)

Example sha256_abc :
  hex (HmacSha256.sha256 (String.list_byte_of_string "abc"))
  = "ba7816bf8f01cfea414140de5dae2223b00361a396177a9cb410ff61f20015ad".
Proof. vm_compute. reflexivity. Qed.

(** RFC 4231, test cases 2 and 6 (a key longer than one block). *)
Example hmac_rfc4231_case2 :
  hex (HmacSha256.hmac (String.list_byte_of_string "Jefe")
         (String.list_byte_of_string "what do ya want for nothing?"))
  = "5bdcc146bf60754e6a042426089575c75a003f089d2739839dec58b964ec3843".
Proof. vm_compute. reflexivity. Qed.

Example hmac_rfc4231_case6 :
  hex (HmacSha256.hmac (replicate 131 Byte.xaa)
         (String.list_byte_of_string "Test Using Larger Than Block-Size Key - Hash Key First"))
  = "60e431591ee0b67f0d8a26aacbf5b77f8e0bc6213728c5140546040f0ee37f54".
Proof. vm_compute. reflexivity. Qed.

(** The token of the scenario row, as Python's [hmac] computes it for
    ["2024-03-01 10:00|abc"] under the key ["default-insecure-key"]. *)
Example hmac_hash_scenario_token :
  @hmac_hash example_runtime (example_deployment []) (VStr "2024-03-01 10:00|abc")
  = VStr "4c9aea8df0107832c7a6bc607afde22799f299af02e0625d3bd6ba097628a0c1".
Proof. vm_compute. reflexivity. Qed.

Example format_timestamp_scenario :
  format_timestamp 1709287200000000000 = "2024-03-01 10:00:00".
Proof. vm_compute. reflexivity. Qed.

Example format_float_defaults :
  (format_float 1.0, format_float 0.5, format_float 2.5) = ("1.0", "0.5", "2.5").
Proof. vm_compute. reflexivity. Qed.

Example float_to_Z_truncates :
  (float_to_Z 1.5, float_to_Z (-2.5), float_to_Z 0.5, float_to_Z infinity, float_to_Z nan)
  = (Some 1, Some (-2), Some 0, None, None).
Proof. vm_compute. reflexivity. Qed.

(** The scenario, run: the batch written under the policy that has a
    default for [pickup_datetime], with the token Python's [hmac] gives
    ["2024-03-01 10:00|abc"] under the key ["default-insecure-key"]. *)
Example scenario_run :
  let out := @main example_runtime (example_deployment scenario_policy) ModeTransform
               (example_world scenario_frame) in
  out.1 = Ok tt /\
  processed_records out.2 =
    [ {| nrows := 1;
         columns :=
           [("id", [VStr "4c9aea8df0107832c7a6bc607afde22799f299af02e0625d3bd6ba097628a0c1"]);
            ("pickup_datetime", [VTime 1709287200000000000]);
            ("dropoff_datetime", [VNone]);
            ("passenger_count", [VInt 1]);
            ("trip_distance", [VFloat 1.0]);
            ("rate_code", [VNone]);
            ("store_and_fwd", [VNone]);
            ("payment_type", [VNone]);
            ("fare_amount", [VNone])] |} ] /\
  pipeline_metrics out.2 =
    [ {| run_id := "run-0"; run_time := 0; stage := "transform";
         rows_processed := 1; notes := "Postgres -> ClickHouse" |} ] /\
  stdout out.2 = ["Wrote 1 rows to ClickHouse."; "Done."].
Proof. cbv zeta. repeat split; vm_compute; reflexivity. Qed.

(** * Reasoning about statements *)

Section Statements.
Context {S : Type}.

Lemma bind_run {A B} (m : ST S A) (k : A -> ST S B) s :
  st_bind m k s =
    match (m s).1 with
    | Ok a => k a (m s).2
    | Raise e => (Raise e, (m s).2)
    end.
Proof. unfold st_bind. by destruct (m s) as [[a|e] s']. Qed.

Lemma bind_ok_inv {A B} (m : ST S A) (k : A -> ST S B) s b s'' :
  st_bind m k s = (Ok b, s'') ->
  exists a s', m s = (Ok a, s') /\ k a s' = (Ok b, s'').
Proof.
  unfold st_bind. destruct (m s) as [[a|e] s'] eqn:E; intros Hk; [eauto | congruence].
Qed.

Lemma stable_run {A} (I : S -> Prop) (m : ST S A) s r s' :
  stable I m -> I s -> m s = (r, s') -> I s'.
Proof. intros Hm Hs E. specialize (Hm s Hs). by rewrite E in Hm. Qed.

Lemma stable_ret {A} (I : S -> Prop) (a : A) : stable I (st_ret a).
Proof. by intros s. Qed.

Lemma stable_lift {A} (I : S -> Prop) (r : res A) : stable I (lift r).
Proof. by intros s. Qed.

Lemma stable_bind {A B} (I : S -> Prop) (m : ST S A) (k : A -> ST S B) :
  stable I m -> (forall a, stable I (k a)) -> stable I (st_bind m k).
Proof.
  intros Hm Hk s Hs. rewrite bind_run. specialize (Hm s Hs).
  destruct (m s) as [[a|e] s']; simpl in *; [by apply Hk | done].
Qed.

Lemma stable_when (I : S -> Prop) (c : bool) (m : ST S unit) :
  stable I m -> stable I (when c m).
Proof. destruct c; [done | intros _; apply stable_ret]. Qed.

Lemma stable_for_each {A} (I : S -> Prop) (xs : list A) (body : A -> ST S unit) :
  (forall x, x ∈ xs -> stable I (body x)) -> stable I (for_each xs body).
Proof.
  induction xs as [|x xs IH]; intros Hb; simpl; [apply stable_ret |].
  apply stable_bind; [apply Hb; left | intros _; apply IH].
  intros y Hy. apply Hb. by right.
Qed.

End Statements.

(** * Association lists *)

Section Assoc.
Context {A : Type}.
Implicit Types (l : list (string * A)) (k : string).

Lemma assoc_set_eq k a l : assoc k (assoc_set k a l) = Some a.
Proof.
  induction l as [|[k' a'] l IH]; simpl.
  - by rewrite String.eqb_refl.
  - destruct (String.eqb k k') eqn:E; simpl; [by rewrite String.eqb_refl | by rewrite E].
Qed.

Lemma assoc_set_ne k k' a l : k <> k' -> assoc k (assoc_set k' a l) = assoc k l.
Proof.
  intros Hne. induction l as [|[k'' a''] l IH]; simpl.
  - by apply String.eqb_neq in Hne as ->.
  - destruct (String.eqb k' k'') eqn:E; simpl.
    + apply String.eqb_eq in E as <-. by apply String.eqb_neq in Hne as ->.
    + by rewrite IH.
Qed.

Lemma assoc_None k l : assoc k l = None <-> k ∉ l.*1.
Proof.
  induction l as [|[k' a'] l IH]; simpl.
  - split; [intros _; apply not_elem_of_nil | done].
  - rewrite not_elem_of_cons. destruct (String.eqb_spec k k') as [->|Hne]; [| by rewrite IH; tauto].
    split; [done | by intros [? _]].
Qed.

Lemma assoc_is_Some k l : is_Some (assoc k l) <-> k ∈ l.*1.
Proof.
  rewrite <- not_eq_None_Some, assoc_None. split; [apply dec_stable | auto].
Qed.

Lemma assoc_elem_of k a l : NoDup l.*1 -> (k, a) ∈ l -> assoc k l = Some a.
Proof.
  induction l as [|[k' a'] l IH]; simpl; intros Hnd Hin.
  - by apply elem_of_nil in Hin.
  - apply NoDup_cons in Hnd as [Hk' Hnd]. apply elem_of_cons in Hin as [[= -> ->]|Hin].
    + by rewrite String.eqb_refl.
    + destruct (String.eqb_spec k k') as [->|Hne]; [| by apply IH].
      exfalso. apply Hk'. apply list_elem_of_fmap. by exists (k', a).
Qed.

Lemma assoc_Some_elem_of k a l : assoc k l = Some a -> (k, a) ∈ l.
Proof.
  induction l as [|[k' a'] l IH]; simpl; [done |].
  destruct (String.eqb_spec k k') as [->|Hne].
  - intros [= ->]. left.
  - intros Hl. right. by apply IH.
Qed.

Lemma assoc_set_names k a l :
  (assoc_set k a l).*1 = match assoc k l with Some _ => l.*1 | None => l.*1 ++ [k] end.
Proof.
  induction l as [|[k' a'] l IH]; [done |].
  cbn [assoc_set assoc].
  destruct (String.eqb_spec k k') as [->|Hne]; [done |].
  rewrite !fmap_cons, IH. by destruct (assoc k l).
Qed.

End Assoc.

(** * Statements on one frame *)

Section Frames.
Implicit Types (d : DataFrame) (c : string) (s : Series).

Lemma writable_nrows c n : writable c (fun d => nrows d = n).
Proof. by intros d s. Qed.

Lemma writable_column c c' x :
  c <> c' -> writable c' (fun d => assoc c (columns d) = x).
Proof. intros Hne d s <-. simpl. by apply assoc_set_ne. Qed.

Lemma stable_contains I c : stable I (contains c).
Proof. by intros d. Qed.

Lemma stable_getitem I c : stable I (getitem c).
Proof. intros d Hd. unfold getitem. by destruct (assoc c (columns d)). Qed.

Lemma stable_setitem I c s : writable c I -> stable I (setitem c s).
Proof. intros Hw d Hd. unfold setitem. case_bool_decide; simpl; [by apply Hw | done]. Qed.

Lemma stable_setitem_scalar I c v : writable c I -> stable I (setitem_scalar c v).
Proof. intros Hw d Hd. by apply Hw. Qed.

Lemma contains_true c d s :
  assoc c (columns d) = Some s -> contains c d = (Ok true, d).
Proof. intros E. unfold contains. rewrite E. by rewrite bool_decide_eq_true_2. Qed.

Lemma contains_false c d :
  assoc c (columns d) = None -> contains c d = (Ok false, d).
Proof.
  intros E. unfold contains. rewrite E. rewrite bool_decide_eq_false_2; [done |].
  by intros [? ?].
Qed.

Lemma setitem_run c s d :
  length s = nrows d -> setitem c s d = (Ok tt, with_column c s d).
Proof. intros E. unfold setitem. by rewrite bool_decide_eq_true_2. Qed.

Lemma setitem_ok_inv c s d r d' :
  setitem c s d = (Ok r, d') -> length s = nrows d /\ d' = with_column c s d.
Proof. unfold setitem. case_bool_decide; [by intros [= <- <-] | done]. Qed.

Lemma update_if_present_absent c f d :
  assoc c (columns d) = None -> update_if_present c f d = (Ok tt, d).
Proof. intros E. unfold update_if_present, st_bind. by rewrite contains_false. Qed.

Lemma update_if_present_run c f d s :
  assoc c (columns d) = Some s ->
  update_if_present c f d =
    match f s with
    | Raise e => (Raise e, d)
    | Ok s' => setitem c s' d
    end.
Proof.
  intros E. unfold update_if_present, st_bind. rewrite (contains_true _ _ _ E). simpl.
  unfold st_bind, getitem, lift. rewrite E. by destruct (f s).
Qed.

Lemma stable_update_if_present I c f :
  writable c I -> stable I (update_if_present c f).
Proof.
  intros Hw. apply stable_bind; [apply stable_contains | intros b].
  apply stable_when. apply stable_bind; [apply stable_getitem | intros s].
  apply stable_bind; [apply stable_lift | intros s']. by apply stable_setitem.
Qed.

(** A column that is not there is not created by [update_if_present]. *)
Lemma stable_update_absent c c' f :
  stable (fun d => assoc c (columns d) = None) (update_if_present c' f).
Proof.
  destruct (decide (c = c')) as [<-|Hne].
  - intros d Hd. by rewrite update_if_present_absent.
  - apply stable_update_if_present. by apply writable_column.
Qed.

End Frames.

(** * The imputer and the normalizer, statement by statement *)

Section Normalizer.
Context `{Runtime} `{Deployment}.
Implicit Types (d : DataFrame) (c : string) (s : Series).

(** [Series.fillna(v)] cell by cell. *)
Lemma fillna_ok_inv s v s' :
  fillna s v = Ok s' -> v <> VNone /\ s' = map (fun x => if isna x then v else x) s.
Proof. destruct v; simpl; intros [= <-]; done. Qed.

Lemma fillna_ok s v :
  v <> VNone -> fillna s v = Ok (map (fun x => if isna x then v else x) s).
Proof. by destruct v. Qed.

Lemma map_lookup {A B} (f : A -> B) (xs : list A) (i : nat) :
  map f xs !! i = f <$> xs !! i.
Proof. apply list_lookup_fmap. Qed.




Lemma fill_defaults_body_cons col val p d :
  fill_defaults_body ((col, val) :: p) d =
    st_bind (fill_one col val) (fun _ => fill_defaults_body p) d.
Proof. reflexivity. Qed.

Lemma fill_one_absent col val d :
  assoc col (columns d) = None ->
  fill_one col val d = (Ok tt, with_column col (replicate (nrows d) val) d).
Proof. intros E. unfold fill_one, st_bind. by rewrite contains_false. Qed.

Lemma fill_one_present col val d s :
  assoc col (columns d) = Some s ->
  fill_one col val d =
    match fillna s val with
    | Raise e => (Raise e, d)
    | Ok s' => setitem col s' d
    end.
Proof.
  intros E. unfold fill_one, st_bind. rewrite (contains_true _ _ _ E).
  unfold getitem, lift. rewrite E. by destruct (fillna s val).
Qed.

Lemma stable_fill_one I col val : writable col I -> stable I (fill_one col val).
Proof.
  intros Hw. apply stable_bind; [apply stable_contains | intros [|]].
  - apply stable_bind; [apply stable_getitem | intros s].
    apply stable_bind; [apply stable_lift | intros s']. by apply stable_setitem.
  - by apply stable_setitem_scalar.
Qed.

Lemma stable_fill_defaults_body I p :
  (forall c, c ∈ p.*1 -> writable c I) -> stable I (fill_defaults_body p).
Proof.
  intros Hw. apply stable_for_each. intros [col val] Hin.
  apply (stable_fill_one I col val), Hw. apply list_elem_of_fmap. by exists (col, val).
Qed.

Lemma stable_derive_id I : writable "id" I -> stable I derive_id.
Proof.
  intros Hw. apply stable_bind; [apply stable_contains | intros [|]]; simpl.
  - apply stable_bind; [apply stable_getitem | intros i]. by apply stable_setitem.
  - apply stable_bind; [apply stable_getitem | intros p].
    apply stable_bind; [apply stable_getitem | intros t]. by apply stable_setitem.
Qed.

Lemma stable_transform_df_body I :
  (forall c, c ∈ normalized_cols -> writable c I) -> stable I transform_df_body.
Proof.
  intros Hw. unfold transform_df_body.
  repeat first
    [ apply stable_bind; [| intros _]
    | apply stable_for_each; intros c Hc
    | apply stable_ret ];
  try (apply stable_derive_id || apply stable_update_if_present);
  apply Hw; unfold normalized_cols; set_solver.
Qed.

(** A contract column other than [id] that the filled frame lacks is still
    lacking when [transform_df] is through. *)
Lemma stable_transform_df_body_absent c :
  c <> "id" -> stable (fun d => assoc c (columns d) = None) transform_df_body.
Proof.
  intros Hne. unfold transform_df_body.
  repeat first
    [ apply stable_bind; [| intros _]
    | apply stable_for_each; intros c' Hc'
    | apply stable_ret ];
  try apply stable_update_absent.
  apply stable_derive_id. by apply writable_column.
Qed.

End Normalizer.

(** * Well-formed frames *)

Section WellFormed.
Context `{Runtime} `{Deployment}.
Implicit Types (d : DataFrame) (c : string) (s : Series).

Lemma wf_column_length d c s :
  wf_frame d -> assoc c (columns d) = Some s -> length s = nrows d.
Proof.
  intros [_ Hlen] E. apply assoc_Some_elem_of in E.
  rewrite Forall_forall in Hlen. apply (Hlen _ E).
Qed.

Lemma assoc_set_Forall {A} (P : string * A -> Prop) k a (l : list (string * A)) :
  P (k, a) -> Forall P l -> Forall P (assoc_set k a l).
Proof.
  intros Hka. induction 1 as [|[k' a'] l Hx Hl IH]; simpl.
  - by repeat constructor.
  - destruct (String.eqb k k'); constructor; done.
Qed.

Lemma wf_with_column d c s :
  wf_frame d -> length s = nrows d -> wf_frame (with_column c s d).
Proof.
  intros [Hnd Hlen] Hs. split.
  - unfold column_names, with_column. simpl. rewrite assoc_set_names.
    destruct (assoc c (columns d)) eqn:E; [done |].
    apply NoDup_app. split; [done |]. split; [| apply NoDup_singleton].
    intros x Hx ->%list_elem_of_singleton. by apply assoc_None in E.
  - by apply assoc_set_Forall.
Qed.

Lemma stable_wf_setitem c s : stable wf_frame (setitem c s).
Proof.
  intros d Hd. unfold setitem. case_bool_decide; simpl; [| done].
  by apply wf_with_column.
Qed.

Lemma stable_wf_setitem_scalar c v : stable wf_frame (setitem_scalar c v).
Proof. intros d Hd. apply (wf_with_column d c); [done | apply length_replicate]. Qed.

Lemma stable_wf_update_if_present c f : stable wf_frame (update_if_present c f).
Proof.
  apply stable_bind; [apply stable_contains | intros b].
  apply stable_when. apply stable_bind; [apply stable_getitem | intros s].
  apply stable_bind; [apply stable_lift | intros s']. apply stable_wf_setitem.
Qed.

Lemma stable_wf_fill_defaults_body p : stable wf_frame (fill_defaults_body p).
Proof.
  apply stable_for_each. intros [col val] _.
  apply stable_bind; [apply stable_contains | intros [|]].
  - apply stable_bind; [apply stable_getitem | intros s].
    apply stable_bind; [apply stable_lift | intros s']. apply stable_wf_setitem.
  - apply stable_wf_setitem_scalar.
Qed.

Lemma stable_wf_derive_id : stable wf_frame derive_id.
Proof.
  apply stable_bind; [apply stable_contains | intros [|]]; simpl.
  - apply stable_bind; [apply stable_getitem | intros i]. apply stable_wf_setitem.
  - apply stable_bind; [apply stable_getitem | intros p].
    apply stable_bind; [apply stable_getitem | intros t]. apply stable_wf_setitem.
Qed.

Lemma stable_wf_transform_df_body : stable wf_frame transform_df_body.
Proof.
  unfold transform_df_body.
  repeat first
    [ apply stable_wf_update_if_present
    | apply stable_wf_derive_id
    | apply stable_bind; [| intros ?]
    | apply stable_for_each; intros c' Hc'
    | apply stable_ret ].
Qed.

Lemma fill_defaults_body_spec p d :
  wf_frame d ->
  NoDup p.*1 ->
  (forall c v s, (c, v) ∈ p -> assoc c (columns d) = Some s -> v <> VNone) ->
  exists d',
    fill_defaults_body p d = (Ok tt, d') /\
    nrows d' = nrows d /\
    forall c, assoc c (columns d') = filled_column p d c.
Proof.
  revert d. induction p as [|[col val] p IH]; intros d Hwf Hnd Hval.
  - exists d. by repeat split.
  - apply NoDup_cons in Hnd as [Hcol Hnd]. simpl in Hcol.
    assert (exists d1, fill_one col val d = (Ok tt, d1) /\ nrows d1 = nrows d /\
              wf_frame d1 /\
              assoc col (columns d1) = filled_column ((col, val) :: p) d col /\
              forall c, c <> col -> assoc c (columns d1) = assoc c (columns d))
      as (d1 & E1 & Hn1 & Hwf1 & Hc1 & Hother).
    { unfold filled_column. simpl. rewrite String.eqb_refl.
      destruct (assoc col (columns d)) as [s|] eqn:E.
      - rewrite (fill_one_present _ _ _ _ E).
        rewrite fillna_ok by (eapply Hval; [left | done]).
        pose proof (wf_column_length _ _ _ Hwf E) as Hlen.
        rewrite setitem_run by (by rewrite length_map).
        eexists. split; [done |]. split; [done |].
        split; [apply wf_with_column; [done | by rewrite length_map] |].
        split; [apply assoc_set_eq | intros c Hc; simpl; by apply assoc_set_ne].
      - rewrite (fill_one_absent _ _ _ E). eexists. split; [done |]. split; [done |].
        split; [apply wf_with_column; [done | apply length_replicate] |].
        split; [apply assoc_set_eq | intros c Hc; simpl; by apply assoc_set_ne]. }
    destruct (IH d1 Hwf1 Hnd) as (d' & E' & Hn' & Hcols).
    { intros c v s Hin Hc. assert (c <> col) as Hne.
      { intros ->. apply Hcol. apply list_elem_of_fmap. by exists (col, v). }
      rewrite Hother in Hc by done. eapply Hval; [by right | done]. }
    exists d'. rewrite fill_defaults_body_cons. unfold st_bind. rewrite E1.
    split; [done |]. split; [congruence |].
    intros c. rewrite Hcols. destruct (decide (c = col)) as [->|Hne].
    + unfold filled_column at 1. apply assoc_None in Hcol. by rewrite Hcol.
    + unfold filled_column. simpl. apply String.eqb_neq in Hne as Hne'. rewrite Hne'.
      rewrite Hother by done. by rewrite Hn1.
Qed.

End WellFormed.

(** * Statements on the world *)

Section WorldRuns.
Context `{Runtime} `{Deployment}.
Implicit Types (w : World) (d : DataFrame) (l : loc).

Lemma on_frame_run {A} l (m : ST DataFrame A) w d :
  heap w !! l = Some d ->
  on_frame l m w = ((m d).1, set_heap <[l := (m d).2]> w).
Proof. intros E. unfold on_frame. rewrite E. by destruct (m d). Qed.

Lemma on_frame_get l w d : heap w !! l = Some d -> on_frame l get w = (Ok d, w).
Proof.
  intros E. rewrite (on_frame_run _ _ _ _ E). simpl. f_equal.
  destruct w; unfold set_heap; simpl in *. f_equal. by apply insert_id.
Qed.

Lemma fill_defaults_run l p w d :
  heap w !! l = Some d ->
  fill_defaults l p w =
    (match (fill_defaults_body p d).1 with Ok _ => Ok l | Raise e => Raise e end,
     set_heap <[l := (fill_defaults_body p d).2]> w).
Proof.
  intros E. unfold fill_defaults. rewrite bind_run, (on_frame_run _ _ _ _ E). simpl.
  by destruct (fill_defaults_body p d) as [[[]|e] d'].
Qed.

Lemma transform_df_run l w d :
  heap w !! l = Some d ->
  transform_df l w =
    (match (transform_frame d).1 with Ok _ => Ok l | Raise e => Raise e end,
     set_heap <[l := (transform_frame d).2]> w).
Proof.
  intros E. unfold transform_df, transform_frame.
  rewrite bind_run, (fill_defaults_run _ _ _ _ E), (bind_run (fill_defaults_body _)).
  destruct (fill_defaults_body DEFAULTS d) as [[[]|e] d1]; simpl; [| done].
  rewrite bind_run. erewrite on_frame_run by (simpl; apply lookup_insert_eq).
  destruct (transform_df_body d1) as [[[]|e] d2]; simpl.
  - unfold st_ret, set_heap. simpl. by rewrite insert_insert_eq.
  - unfold set_heap. simpl. by rewrite insert_insert_eq.
Qed.

End WorldRuns.

(** * Projection onto the target contract *)

Section Projection.
Context `{Runtime} `{Deployment}.
Implicit Types (w : World) (d : DataFrame) (l : loc) (c : string).

(** [for c in cols: if c not in df.columns: df[c] = None], for any [cols]. *)
Lemma ensure_cols_spec (cols : list string) d :
  exists d',
    for_each cols (fun c => b <- contains c ;; when (negb b) (setitem_scalar c VNone)) d
      = (Ok tt, d') /\
    nrows d' = nrows d /\
    forall c, assoc c (columns d') =
      if decide (c ∈ cols)
      then Some (default (replicate (nrows d) VNone) (assoc c (columns d)))
      else assoc c (columns d).
Proof.
  revert d. induction cols as [|c0 cols IH]; intros d.
  - exists d. split; [done |]. split; [done |].
    intros c. by rewrite decide_False by apply not_elem_of_nil.
  - set (d1 := match assoc c0 (columns d) with
               | Some _ => d
               | None => with_column c0 (replicate (nrows d) VNone) d
               end).
    assert (nrows d1 = nrows d) as Hn1 by (subst d1; by destruct (assoc c0 (columns d))).
    assert (assoc c0 (columns d1)
            = Some (default (replicate (nrows d) VNone) (assoc c0 (columns d)))) as Hc0.
    { subst d1. destruct (assoc c0 (columns d)) eqn:E; simpl; [done | apply assoc_set_eq]. }
    assert (forall c, c <> c0 -> assoc c (columns d1) = assoc c (columns d)) as Hother.
    { intros c Hne. subst d1. destruct (assoc c0 (columns d)); simpl; [done |].
      by apply assoc_set_ne. }
    destruct (IH d1) as (d' & E' & Hn' & Hcols).
    exists d'. split; [| split; [congruence |]].
    + simpl. unfold st_bind at 1. unfold st_bind at 1.
      destruct (assoc c0 (columns d)) as [s|] eqn:E.
      * rewrite (contains_true _ _ _ E). simpl. unfold st_ret. by subst d1.
      * rewrite (contains_false _ _ E). simpl. unfold setitem_scalar. by subst d1.
    + intros c. rewrite Hcols, Hn1. destruct (decide (c = c0)) as [->|Hne].
      * rewrite (decide_True (P := c0 ∈ c0 :: cols)) by left.
        rewrite Hc0. by destruct (decide (c0 ∈ cols)).
      * rewrite Hother by done.
        destruct (decide (c ∈ cols)) as [Hin|Hnin].
        -- by rewrite decide_True by (by right).
        -- rewrite decide_False; [done |]. by intros [?|?]%elem_of_cons.
Qed.

Lemma ensure_target_cols_spec d :
  exists d',
    ensure_target_cols d = (Ok tt, d') /\
    nrows d' = nrows d /\
    forall c, assoc c (columns d') =
      if decide (c ∈ target_cols)
      then Some (default (replicate (nrows d) VNone) (assoc c (columns d)))
      else assoc c (columns d).
Proof. apply ensure_cols_spec. Qed.

Lemma select_columns_spec (cols : list string) d :
  (forall c, c ∈ cols -> is_Some (assoc c (columns d))) ->
  exists r,
    select_columns cols d = Ok r /\ r.*1 = cols /\
    forall c, c ∈ cols -> assoc c r = assoc c (columns d).
Proof.
  induction cols as [|c0 cols IH]; intros Hall; simpl.
  - exists []. repeat split. by intros c ?%elem_of_nil.
  - destruct (Hall c0) as [s0 E0]; [left |]. rewrite E0.
    destruct IH as (r & -> & Hnames & Hr); [intros c Hc; apply Hall; by right |].
    exists ((c0, s0) :: r). split; [done |]. split; [by rewrite fmap_cons, Hnames |].
    intros c Hc. simpl. destruct (String.eqb_spec c c0) as [->|Hne]; [done |].
    apply Hr. by apply elem_of_cons in Hc as [?|?].
Qed.

Lemma where_notnull_none_names d :
  column_names (where_notnull_none d) = column_names d.
Proof.
  unfold column_names, where_notnull_none. simpl.
  rewrite <- list_fmap_compose. by apply list_fmap_ext.
Qed.

Lemma where_notnull_none_column d c :
  assoc c (columns (where_notnull_none d))
  = map (fun v => if notna v then v else VNone) <$> assoc c (columns d).
Proof.
  unfold where_notnull_none. simpl.
  induction (columns d) as [|[c' s'] cs IH]; simpl; [done |].
  by destruct (String.eqb c c').
Qed.

Lemma project_spec d :
  exists b,
    project d = Ok b /\
    nrows b = nrows d /\
    column_names b = target_cols /\
    forall c, c ∈ target_cols ->
      assoc c (columns b) =
        Some (map (fun v => if notna v then v else VNone)
                (default (replicate (nrows d) VNone) (assoc c (columns d)))).
Proof.
  unfold project.
  destruct (ensure_target_cols_spec d) as (d' & -> & Hn & Hcols).
  destruct (select_columns_spec target_cols d') as (r & Er & Hnames & Hr).
  { intros c Hc. rewrite Hcols, decide_True by done. eauto. }
  unfold select. rewrite Er. eexists. split; [done |]. split; [done |].
  split; [by rewrite where_notnull_none_names |].
  intros c Hc. rewrite where_notnull_none_column. simpl.
  by rewrite (Hr _ Hc), Hcols, decide_True.
Qed.

End Projection.

(** * The transform arm of the run controller *)

Section TransformArm.
Context `{Runtime} `{Deployment}.
Implicit Types (w : World) (d : DataFrame) (l : loc) (c : string).

Lemma transform_frame_nrows d : nrows (transform_frame d).2 = nrows d.
Proof.
  apply (stable_bind (fun d' => nrows d' = nrows d)); [| intros _ | done].
  - apply stable_fill_defaults_body. intros c _. apply writable_nrows.
  - apply stable_transform_df_body. intros c _. apply writable_nrows.
Qed.

Lemma project_steps d :
  exists d' sel,
    ensure_target_cols d = (Ok tt, d') /\
    select target_cols d' = Ok sel /\
    project d = Ok (where_notnull_none sel) /\
    nrows sel = nrows d /\
    column_names sel = target_cols.
Proof.
  unfold project.
  destruct (ensure_target_cols_spec d) as (d' & E & Hn & Hcols).
  destruct (select_columns_spec target_cols d') as (r & Er & Hnames & Hr).
  { intros c Hc. rewrite Hcols, decide_True by done. eauto. }
  exists d', {| nrows := nrows d'; columns := r |}.
  rewrite E. unfold select. rewrite Er. done.
Qed.

Lemma main_transform_empty rid w :
  empty_frame (raw_input w) = true ->
  exists h,
    main_transform rid w =
      (Ok true,
       set_heap (fun _ => h)
         (add_metric (transform_metric rid w 0 "no rows")
            (read_clock (add_stdout "No data in staging; skipping transform." w)))).
Proof.
  intros Hempty. eexists. unfold main_transform, read_from_postgres.
  rewrite bind_run. simpl. rewrite bind_run.
  erewrite on_frame_get by (simpl; apply lookup_insert_eq). simpl.
  rewrite Hempty. reflexivity.
Qed.

Lemma main_transform_nonempty rid w :
  empty_frame (raw_input w) = false ->
  exists h,
    main_transform rid w =
      match batch_of (raw_input w) with
      | Raise e => (Raise e, set_heap (fun _ => h) w)
      | Ok b =>
          (Ok false,
           set_heap (fun _ => h)
             (add_stdout ("Wrote " +:+ pretty (nrows (raw_input w)) +:+ " rows to ClickHouse.")
                (add_metric
                   (transform_metric rid w (nrows (raw_input w)) "Postgres -> ClickHouse")
                   (read_clock (add_processed b w)))))
      end.
Proof.
  intros Hne. unfold main_transform, read_from_postgres, batch_of.
  rewrite bind_run. simpl. rewrite bind_run.
  erewrite on_frame_get by (simpl; apply lookup_insert_eq). simpl.
  rewrite Hne. rewrite bind_run.
  erewrite transform_df_run by (simpl; apply lookup_insert_eq).
  pose proof (transform_frame_nrows (raw_input w)) as Hn.
  destruct (transform_frame (raw_input w)) as [[[]|e] d2]; simpl in *; [| by eexists].
  destruct (project_steps d2) as (d3 & sel & E3 & Esel & -> & Hnsel & Hnames).
  rewrite bind_run. erewrite on_frame_run by (simpl; apply lookup_insert_eq).
  rewrite E3. simpl. rewrite bind_run.
  erewrite on_frame_get by (simpl; apply lookup_insert_eq). simpl.
  rewrite bind_run. unfold lift at 1. simpl. rewrite Esel. simpl.
  rewrite bind_run. simpl. rewrite bind_run. unfold write_to_clickhouse.
  rewrite bind_run. erewrite on_frame_get by (simpl; apply lookup_insert_eq). simpl.
  assert (empty_frame sel = false) as ->.
  { unfold empty_frame in *. apply orb_false_iff in Hne as [Hr _].
    apply orb_false_iff. split.
    - rewrite Hnsel, Hn. done.
    - apply bool_decide_eq_false. intros E. unfold column_names in Hnames.
      by rewrite E in Hnames. }
  rewrite bind_run. simpl. rewrite bind_run.
  erewrite on_frame_get by (simpl; apply lookup_insert_eq). simpl.
  rewrite Hnsel, Hn. eexists. reflexivity.
Qed.

End TransformArm.

(** * The ingest arm *)

Section IngestArm.
Context `{Runtime} `{Deployment}.
Implicit Types (w : World) (d : DataFrame) (l : loc) (c : string).

Lemma pg_insert_nrows cols rows t t' :
  pg_insert cols rows t = Ok t' -> nrows t' = (nrows t + length rows)%nat.
Proof.
  unfold pg_insert. repeat case_match; try done. by intros [= <-].
Qed.

Lemma to_records_length d : length (to_records d) = nrows d.
Proof. unfold to_records. by rewrite length_map, length_seq. Qed.

Lemma ingest_csv_to_postgres_spec path w :
  let r := ingest_csv_to_postgres path w in
  bookkeeping r.2 = bookkeeping w /\
  forall n, r.1 = Ok n ->
    nrows (raw_input r.2) = (nrows (raw_input w) + n)%nat /\
    n = from_option nrows 0%nat (files w !! path) /\
    (n = 0%nat -> stdout r.2 = stdout w).
Proof.
  unfold ingest_csv_to_postgres. simpl. rewrite bind_run. simpl.
  destruct (files w !! path) as [csv|] eqn:Ecsv; simpl.
  - rewrite bind_run. simpl. rewrite bind_run.
    erewrite on_frame_get by (simpl; apply lookup_insert_eq). simpl.
    rewrite bind_run. unfold when.
    set (values := map _ (to_records (where_notnull_none csv))).
    assert (length values = nrows csv) as Hlen.
    { subst values. by rewrite length_map, to_records_length. }
    case_bool_decide as Hv; simpl.
    + split; [done |]. intros n [= <-]. rewrite Hv in *. simpl in *.
      split; [lia |]. split; [lia | done].
    + rewrite bind_run. simpl. rewrite bind_run. unfold lift at 1. simpl.
      destruct (pg_insert (column_names csv) values (raw_input w)) as [t|e] eqn:Et; simpl.
      * split; [done |]. intros n [= <-]. split; [| split; [done |]].
        -- by rewrite (pg_insert_nrows _ _ _ _ Et).
        -- intros Hz. destruct values; [done | simpl in Hz; lia].
      * split; [done | done].
  - split; [done |]. intros n [= <-]. simpl. split; [lia | done].
Qed.

End IngestArm.

(** * The anonymizer *)

Section Anonymizer.
Context `{Runtime} `{Deployment}.

Lemma hex_lower (bs : list Byte.byte) :
  forallb is_lower_hex (String.list_ascii_of_string (hex bs)) = true.
Proof.
  induction bs as [|b bs IH]; [done |].
  simpl. rewrite IH, andb_true_r. by destruct b.
Qed.

Lemma hex_length (bs : list Byte.byte) : String.length (hex bs) = (2 * length bs)%nat.
Proof. induction bs as [|b bs IH]; simpl; [done | rewrite IH; lia]. Qed.

(** C6. [hmac_hash] is total: on a null input ([None], [NaN], [NaT]) it
    returns [None]; on any other input it returns the hexadecimal digest,
    in lowercase digits, of HMAC-SHA256 under [HMAC_KEY] over the UTF-8
    bytes of [str(value)]. *)
Theorem hmac_hash_spec (v : value) :
  (isna v = true -> hmac_hash v = VNone) /\
  (isna v = false ->
   let digest := hmac_sha256 HMAC_KEY (encode_utf8 (py_str v)) in
   hmac_hash v = VStr (hex digest) /\
   isna (hmac_hash v) = false /\
   forallb is_lower_hex (String.list_ascii_of_string (hex digest)) = true /\
   String.length (hex digest) = (2 * length digest)%nat).
Proof.
  unfold hmac_hash. split.
  - by intros ->.
  - intros Hv. rewrite Hv. assert (is_None v = false) as -> by (by destruct v).
    simpl. split; [done |]. split; [done |]. split; [apply hex_lower | apply hex_length].
Qed.

End Anonymizer.

(** * The default fill *)

Section DefaultFill.
Context `{Runtime} `{Deployment}.
Implicit Types (w : World) (d : DataFrame) (l : loc) (c : string).


End DefaultFill.


(** * Soft coercion *)

Section SoftCoercion.
Context `{Runtime} `{Deployment}.
Implicit Types (w : World) (d : DataFrame) (l : loc) (c : string) (s : Series).

Lemma coerce_numeric_total c s :
  dict_get DEFAULTS c <> VNone ->
  exists s', coerce_numeric c s = Ok s' /\ length s' = length s.
Proof.
  intros Hv. unfold coerce_numeric. rewrite fillna_ok by done.
  eexists. split; [done |]. unfold to_numeric_coerce. by rewrite !length_map.
Qed.

Lemma parse_datetimes_total c s v :
  to_datetime_scalar (dict_get DEFAULTS c) = Ok v -> v <> VNone ->
  exists s', parse_datetimes c s = Ok s' /\ length s' = length s.
Proof.
  intros Ev Hv. unfold parse_datetimes. rewrite Ev, fillna_ok by done.
  eexists. split; [done |]. unfold to_datetime_coerce. by rewrite !length_map.
Qed.

End SoftCoercion.

(** * The run controller, mode by mode *)

Section Controller.
Context `{Runtime} `{Deployment}.
Implicit Types (w : World) (d : DataFrame) (l : loc) (c : string).

Lemma main_ModeTransform w :
  main ModeTransform w = after_transform (main_transform (run_id_of w) (draw_uuid w)).
Proof.
  unfold main, after_transform. rewrite bind_run. simpl. rewrite bind_run. simpl.
  rewrite bind_run.
  by destruct (main_transform _ _) as [[[|]|e] w1].
Qed.

Lemma main_ModeFull w :
  main ModeFull w =
    match ingest_csv_to_postgres INPUT_CSV (draw_uuid w) with
    | (Raise e, w1) => (Raise e, w1)
    | (Ok n, w1) =>
        after_transform
          (main_transform (run_id_of w)
             (add_metric (ingest_metric (run_id_of w) w1 n) (read_clock w1)))
    end.
Proof.
  unfold main, after_transform. rewrite bind_run. simpl. rewrite bind_run. simpl.
  rewrite bind_run.
  destruct (ingest_csv_to_postgres _ _) as [[n|e] w1]; simpl; [| done].
  rewrite bind_run.
  by destruct (main_transform _ _) as [[[|]|e] w2].
Qed.

Lemma main_ModeIngest w :
  main ModeIngest w =
    match ingest_csv_to_postgres INPUT_CSV (draw_uuid w) with
    | (Raise e, w1) => (Raise e, w1)
    | (Ok n, w1) =>
        (Ok tt, add_stdout "Done." (add_metric (ingest_metric (run_id_of w) w1 n) (read_clock w1)))
    end.
Proof.
  unfold main. rewrite bind_run. simpl. rewrite bind_run. simpl. rewrite bind_run.
  by destruct (ingest_csv_to_postgres _ _) as [[n|e] w1].
Qed.


Lemma main_transform_outcome rid w : transform_outcome rid w (main_transform rid w).
Proof.
  destruct (empty_frame (raw_input w)) eqn:He.
  - destruct (main_transform_empty rid w He) as [h ->]. by constructor.
  - destruct (main_transform_nonempty rid w He) as [h ->].
    destruct (batch_of (raw_input w)) as [b|e] eqn:Eb; by constructor.
Qed.

Lemma batch_of_shape d b :
  batch_of d = Ok b -> nrows b = nrows d /\ column_names b = target_cols.
Proof.
  unfold batch_of. pose proof (transform_frame_nrows d) as Hn.
  destruct (transform_frame d) as [[[]|e] d']; [| done]. simpl in Hn.
  destruct (project_spec d') as (b' & -> & Hnb & Hnames & _).
  intros [= <-]. split; [congruence | done].
Qed.

End Controller.

(** * What a run leaves behind *)

Section RunFacts.
Context `{Runtime} `{Deployment}.
Implicit Types (w : World) (d : DataFrame) (l : loc) (c : string).

(** The transform arm, from the world [w] it starts in: what it adds to
    ClickHouse and what it leaves alone. *)
Lemma transform_arm_facts rid w :
  let out := after_transform (main_transform rid w) in
  uuid_drawn out.2 = uuid_drawn w /\
  raw_input out.2 = raw_input w /\
  exists bs ms,
    processed_records out.2 = processed_records w ++ bs /\
    pipeline_metrics out.2 = pipeline_metrics w ++ ms /\
    Forall (fun m => run_id m = rid /\ stage m = "transform") ms /\
    (out.1 = Ok tt ->
     exists m, ms = [m] /\
       if empty_frame (raw_input w)
       then bs = [] /\ m = transform_metric rid w 0 "no rows" /\
            stdout out.2 = stdout w ++ ["No data in staging; skipping transform."]
       else exists b, bs = [b] /\ batch_of (raw_input w) = Ok b /\
            m = transform_metric rid w (nrows (raw_input w)) "Postgres -> ClickHouse").
Proof.
  destruct (main_transform_outcome rid w) as [h He|h e He Eb|h b He Eb]; simpl.
  - split; [done |]. split; [done |]. exists [], [transform_metric rid w 0 "no rows"].
    rewrite app_nil_r, He. split; [done |]. split; [done |].
    split; [by repeat constructor |]. intros _. by eexists.
  - split; [done |]. split; [done |]. exists [], [].
    rewrite !app_nil_r. split; [done |]. split; [done |]. split; [constructor | done].
  - split; [done |]. split; [done |].
    exists [b], [transform_metric rid w (nrows (raw_input w)) "Postgres -> ClickHouse"].
    rewrite He. split; [done |]. split; [done |].
    split; [by repeat constructor |]. intros _. eexists. split; [done |]. by exists b.
Qed.

End RunFacts.

Section RunMetrics.
Context `{Runtime} `{Deployment}.
Implicit Types (w : World) (d : DataFrame) (l : loc) (c : string).



End RunMetrics.

(** * Empty batches, row counts and reruns *)

Section Batches.
Context `{Runtime} `{Deployment}.
Implicit Types (w : World) (d : DataFrame) (l : loc) (c : string).

Lemma transform_arm_written rid w :
  let out := after_transform (main_transform rid w) in
  out.1 = ending (raw_input w) /\
  processed_records out.2 = processed_records w ++ written (raw_input w).
Proof.
  unfold written, ending.
  destruct (main_transform_outcome rid w) as [h He|h e He Eb|h b He Eb]; simpl;
    rewrite He, ?Eb; by rewrite ?app_nil_r.
Qed.

(** C4. A run in mode [transform], or in mode [full] when the CSV brings no
    rows, that finds the staging table with zero rows writes nothing to
    [processed_records], adds exactly one [transform] metric, with
    [rows_processed = 0] and the run's identifier, and returns at once: the
    last line it prints is the skip notice, not [Done.]. *)
Theorem empty_batch_noop (mode : Mode) w :
  mode_in_transform_full mode = true ->
  nrows (raw_input w) = 0%nat ->
  (mode = ModeFull -> from_option nrows 0%nat (files w !! INPUT_CSV) = 0%nat) ->
  let out := main mode w in
  out.1 = Ok tt /\
  processed_records out.2 = processed_records w /\
  (exists ms m,
     pipeline_metrics out.2 = pipeline_metrics w ++ ms ++ [m] /\
     Forall (fun m' => stage m' = "ingest") ms /\
     stage m = "transform" /\ rows_processed m = 0%nat /\
     run_id m = run_id_of w /\ notes m = "no rows") /\
  stdout out.2 = stdout w ++ ["No data in staging; skipping transform."].
Proof.
  intros Hmode Hzero Hcsv.
  assert (forall rid w2,
            nrows (raw_input w2) = 0%nat ->
            let out := after_transform (main_transform rid w2) in
            out.1 = Ok tt /\ processed_records out.2 = processed_records w2 /\
            pipeline_metrics out.2 = pipeline_metrics w2 ++ [transform_metric rid w2 0 "no rows"] /\
            stdout out.2 = stdout w2 ++ ["No data in staging; skipping transform."]) as Harm.
  { intros rid w2 Hz.
    assert (empty_frame (raw_input w2) = true) as He.
    { unfold empty_frame. by rewrite Hz. }
    destruct (main_transform_empty rid w2 He) as [h ->]. by simpl. }
  destruct mode; try done; cbv zeta.
  - rewrite main_ModeTransform.
    destruct (Harm (run_id_of w) (draw_uuid w) Hzero) as (-> & -> & -> & ->).
    split; [done |]. split; [done |]. split; [| done].
    by exists [], (transform_metric (run_id_of w) (draw_uuid w) 0 "no rows").
  - rewrite main_ModeFull.
    pose proof (ingest_csv_to_postgres_spec INPUT_CSV (draw_uuid w)) as [Hbk Hrows].
    destruct (ingest_csv_to_postgres INPUT_CSV (draw_uuid w)) as [[n|e] w1] eqn:Ei; simpl in *.
    + injection Hbk as Hpr Hpm Hus Hud Hc Hcr.
      destruct (Hrows n eq_refl) as (Hn & Hcount & Hout).
      rewrite (Hcsv eq_refl) in Hcount. subst n.
      set (w2 := add_metric (ingest_metric (run_id_of w) w1 0) (read_clock w1)).
      destruct (Harm (run_id_of w) w2) as (-> & -> & -> & ->).
      { subst w2. simpl. lia. }
      subst w2. simpl. rewrite Hpr, Hpm, (Hout eq_refl).
      split; [done |]. split; [done |]. split; [| done].
      exists [ingest_metric (run_id_of w) w1 0], (transform_metric (run_id_of w)
        (add_metric (ingest_metric (run_id_of w) w1 0) (read_clock w1)) 0 "no rows").
      rewrite <- app_assoc. split; [done |]. by repeat constructor.
    + (* the ingest of no rows cannot raise *)
      exfalso. revert Ei. unfold ingest_csv_to_postgres. rewrite bind_run. simpl.
      destruct (files w !! INPUT_CSV) as [csv|] eqn:Ecsv; [| done].
      simpl in Hcsv. specialize (Hcsv eq_refl).
      rewrite bind_run. simpl. rewrite bind_run.
      erewrite on_frame_get by (simpl; apply lookup_insert_eq). simpl.
      rewrite bind_run. unfold to_records. simpl. rewrite Hcsv. done.
Qed.

End Batches.

Lemma empty_batch_noop_witness :
  let out := @main example_runtime (example_deployment []) ModeTransform
               (example_world empty_staging) in
  out.1 = Ok tt /\
  processed_records out.2 = [] /\
  (exists ms m,
     pipeline_metrics out.2 = [] ++ ms ++ [m] /\
     Forall (fun m' => stage m' = "ingest") ms /\
     stage m = "transform" /\ rows_processed m = 0%nat /\
     run_id m = "run-0" /\ notes m = "no rows") /\
  stdout out.2 = [] ++ ["No data in staging; skipping transform."].
Proof.
  apply (@empty_batch_noop example_runtime (example_deployment []) ModeTransform
           (example_world empty_staging)).
  - reflexivity.
  - reflexivity.
  - discriminate.
Defined.

Section RowCounts.
Context `{Runtime} `{Deployment}.
Implicit Types (w : World) (d : DataFrame) (l : loc) (c : string).

Lemma written_rows d :
  Forall (fun b => nrows b = nrows d /\ column_names b = target_cols) (written d).
Proof.
  unfold written. destruct (empty_frame d); [constructor |].
  destruct (batch_of d) as [b|e] eqn:Eb; [| constructor].
  apply Forall_singleton. by apply batch_of_shape.
Qed.

(** C10. In a run that executes the transform stage and ends normally, on a
    staging table that has a column, every batch written to
    [processed_records] has as many rows as the staged batch the stage read
    (the staging table as the run leaves it: the stage does not write to
    it), a batch is written as soon as there is a row, and the [transform]
    metric, the last of the run, counts that same number. *)
Theorem transform_preserves_rows (mode : Mode) w :
  mode_in_transform_full mode = true ->
  let out := main mode w in
  out.1 = Ok tt ->
  columns (raw_input out.2) <> [] ->
  (mode = ModeTransform -> raw_input out.2 = raw_input w) /\
  exists bs m,
    processed_records out.2 = processed_records w ++ bs /\
    Forall (fun b => nrows b = nrows (raw_input out.2)) bs /\
    (nrows (raw_input out.2) <> 0%nat -> length bs = 1%nat) /\
    last (pipeline_metrics out.2) = Some m /\
    stage m = "transform" /\
    rows_processed m = nrows (raw_input out.2).
Proof.
  intros Hmode.
  assert (forall rid w2,
            let out := after_transform (main_transform rid w2) in
            out.1 = Ok tt -> columns (raw_input out.2) <> [] ->
            raw_input out.2 = raw_input w2 /\
            exists bs m,
              processed_records out.2 = processed_records w2 ++ bs /\
              Forall (fun b => nrows b = nrows (raw_input out.2)) bs /\
              (nrows (raw_input out.2) <> 0%nat -> length bs = 1%nat) /\
              last (pipeline_metrics out.2) = Some m /\
              stage m = "transform" /\
              rows_processed m = nrows (raw_input out.2)) as Harm.
  { intros rid w2 out Hok Hcols. subst out.
    destruct (transform_arm_facts rid w2) as (_ & Hr & bs & ms & Hbs & Hms & _ & Hone).
    rewrite Hr in *. split; [done |].
    destruct (Hone Hok) as (m & -> & Hm). exists bs, m.
    split; [done |]. rewrite Hms, last_snoc.
    destruct (empty_frame (raw_input w2)) eqn:He.
    - destruct Hm as (-> & -> & _).
      assert (nrows (raw_input w2) = 0%nat) as Hz.
      { unfold empty_frame in He. apply orb_true_iff in He as [He|He].
        - by apply bool_decide_eq_true in He.
        - by apply bool_decide_eq_true in He. }
      rewrite Hz. by repeat split.
    - destruct Hm as (b & -> & Eb & ->). apply batch_of_shape in Eb as [Hn _].
      split; [by apply Forall_singleton |]. by repeat split. }
  destruct mode; try done; cbv zeta.
  - rewrite main_ModeTransform. intros Hok Hcols.
    destruct (Harm (run_id_of w) (draw_uuid w) Hok Hcols) as [Hr Hrest]. by split.
  - rewrite main_ModeFull.
    pose proof (ingest_csv_to_postgres_spec INPUT_CSV (draw_uuid w)) as [Hbk _].
    destruct (ingest_csv_to_postgres INPUT_CSV (draw_uuid w)) as [[n|e] w1]; simpl in *; [| done].
    injection Hbk as Hpr Hpm Hus Hud Hc Hcr. intros Hok Hcols.
    destruct (Harm _ _ Hok Hcols) as [Hr (bs & m & Hbs & Hrest)].
    split; [done |]. exists bs, m. split; [| done]. rewrite Hbs. simpl. by rewrite Hpr.
Qed.

End RowCounts.

Lemma transform_preserves_rows_witness :
  let out := @main example_runtime (example_deployment scenario_policy) ModeTransform
               (example_world scenario_frame) in
  (ModeTransform = ModeTransform -> raw_input out.2 = scenario_frame) /\
  exists bs m,
    processed_records out.2 = [] ++ bs /\
    Forall (fun b => nrows b = nrows (raw_input out.2)) bs /\
    (nrows (raw_input out.2) <> 0%nat -> length bs = 1%nat) /\
    last (pipeline_metrics out.2) = Some m /\
    stage m = "transform" /\
    rows_processed m = nrows (raw_input out.2).
Proof.
  apply (@transform_preserves_rows example_runtime (example_deployment scenario_policy)
           ModeTransform (example_world scenario_frame)).
  - reflexivity.
  - vm_compute. reflexivity.
  - vm_compute. discriminate.
Defined.

(** * Reruns *)

Section Reruns.
Context `{Runtime}.

(** C2. The digest is a function of the value and of the key: two processes
    whose key is the same give every value the same token. The batch a
    transform run writes, identity column included, is a function of the
    staged batch: two runs on the same staging table, whatever else differs
    (frames in memory, earlier contents of ClickHouse, run identifier,
    clock), end the same way and write the same batches; and a second run
    after a first one, which leaves the staging table as it was, writes
    again what the first one wrote. *)
Theorem transform_rerun_same_tokens :
  (forall (D1 D2 : Deployment) (v : value),
     @HMAC_KEY D1 = @HMAC_KEY D2 -> @hmac_hash _ D1 v = @hmac_hash _ D2 v) /\
  (forall (D : Deployment) (staged : DataFrame) (w1 w2 : World),
     let out1 := main ModeTransform (set_raw_input staged w1) in
     let out2 := main ModeTransform (set_raw_input staged w2) in
     out1.1 = out2.1 /\
     exists bs,
       processed_records out1.2 = processed_records w1 ++ bs /\
       processed_records out2.2 = processed_records w2 ++ bs /\
       Forall (fun b => exists ids, assoc "id" (columns b) = Some ids) bs) /\
  (forall (D : Deployment) (w : World),
     let out1 := main ModeTransform w in
     let out2 := main ModeTransform out1.2 in
     raw_input out1.2 = raw_input w /\
     exists bs,
       processed_records out1.2 = processed_records w ++ bs /\
       processed_records out2.2 = processed_records out1.2 ++ bs).
Proof.
  split; [| split].
  - intros D1 D2 v Hkey. unfold hmac_hash. by rewrite Hkey.
  - intros D staged w1 w2. cbv zeta. rewrite !main_ModeTransform.
    destruct (transform_arm_written (run_id_of (set_raw_input staged w1))
                (draw_uuid (set_raw_input staged w1))) as [E1 P1].
    destruct (transform_arm_written (run_id_of (set_raw_input staged w2))
                (draw_uuid (set_raw_input staged w2))) as [E2 P2].
    simpl in *. split; [by rewrite E1, E2 |].
    exists (written staged). split; [done |]. split; [done |].
    eapply Forall_impl; [apply written_rows |].
    intros b [_ Hnames]. change (is_Some (assoc "id" (columns b))).
    apply assoc_is_Some. unfold column_names in Hnames. rewrite Hnames. left.
  - intros D w. cbv zeta. rewrite !main_ModeTransform.
    destruct (transform_arm_written (run_id_of w) (draw_uuid w)) as [_ P1].
    destruct (transform_arm_facts (run_id_of w) (draw_uuid w)) as (_ & Hr & _).
    set (w' := (after_transform (main_transform (run_id_of w) (draw_uuid w))).2) in *.
    destruct (transform_arm_written (run_id_of w') (draw_uuid w')) as [_ P2].
    simpl in *. split; [done |]. exists (written (raw_input w)).
    split; [done |]. by rewrite P2, Hr.
Qed.

End Reruns.

(** * The identity column *)

Section Identity.
Context `{Runtime} `{Deployment}.
Implicit Types (w : World) (d : DataFrame) (l : loc) (c : string) (s : Series).

Lemma derive_id_synthesize d p t :
  assoc "id" (columns d) = None ->
  assoc "pickup_datetime" (columns d) = Some p ->
  assoc "trip_distance" (columns d) = Some t ->
  derive_id d =
    setitem "id"
      (map (fun x => hmac_hash (VStr x)) (str_join (astype_str p) "|" (astype_str t))) d.
Proof.
  intros Ei Ep Et. unfold derive_id. rewrite bind_run, (contains_false _ _ Ei). simpl.
  unfold st_bind, getitem. by rewrite Ep, Et.
Qed.


Lemma transform_df_body_unfold d :
  transform_df_body d = st_bind derive_id (fun _ => normalize_rest) d.
Proof. reflexivity. Qed.

Lemma stable_normalize_rest I :
  (forall c, c ∈ normalized_cols -> c <> "id" -> writable c I) -> stable I normalize_rest.
Proof.
  intros Hw. unfold normalize_rest.
  repeat first
    [ apply stable_update_if_present; apply Hw; [unfold normalized_cols; set_solver | set_solver]
    | apply stable_bind; [| intros _]
    | apply stable_for_each; intros c Hc
    | apply stable_ret ].
Qed.


End Identity.


(** * The target contract *)

Section Contract.
Context `{Runtime} `{Deployment}.
Implicit Types (w : World) (d : DataFrame) (l : loc) (c : string) (s : Series).

Lemma transform_frame_absent d c :
  c <> "id" -> c ∉ column_names d -> c ∉ DEFAULTS.*1 ->
  assoc c (columns (transform_frame d).2) = None.
Proof.
  intros Hid Hsrc Hpol.
  apply (stable_bind (fun d' => assoc c (columns d') = None)); [| intros _ |].
  - apply stable_fill_defaults_body. intros c' Hc'. apply writable_column. by intros ->.
  - by apply stable_transform_df_body_absent.
  - by apply assoc_None.
Qed.

Lemma map_replicate_None n :
  map (fun v => if notna v then v else VNone) (replicate n VNone) = replicate n VNone.
Proof. induction n as [|n IH]; simpl; [done | by rewrite IH]. Qed.

(** C1, as the code has it. For a non-empty staged batch on which the
    transform ends normally, the run writes one batch; its columns are the
    nine of the contract, in the contract's order, whatever columns the
    source had; and a contract column other than [id] that the source lacks
    and the policy does not name is [None] in every row. *)
Theorem written_batch_contract w :
  let out := main ModeTransform w in
  empty_frame (raw_input w) = false ->
  out.1 = Ok tt ->
  exists b,
    processed_records out.2 = processed_records w ++ [b] /\
    column_names b =
      ["id"; "pickup_datetime"; "dropoff_datetime"; "passenger_count"; "trip_distance";
       "rate_code"; "store_and_fwd"; "payment_type"; "fare_amount"] /\
    nrows b = nrows (raw_input w) /\
    forall c, c ∈ target_cols -> c <> "id" ->
      c ∉ column_names (raw_input w) -> c ∉ DEFAULTS.*1 ->
      assoc c (columns b) = Some (replicate (nrows (raw_input w)) VNone).
Proof.
  cbv zeta. rewrite main_ModeTransform. intros Hne Hok.
  destruct (transform_arm_facts (run_id_of w) (draw_uuid w))
    as (_ & _ & bs & ms & Hbs & _ & _ & Hone).
  destruct (Hone Hok) as (m & _ & Hm). simpl in Hm. rewrite Hne in Hm.
  destruct Hm as (b & -> & Eb & _). exists b. split; [done |].
  destruct (batch_of_shape _ _ Eb) as [Hn Hnames]. split; [done |]. split; [done |].
  intros c Hc Hid Hsrc Hpol. unfold batch_of in Eb.
  pose proof (transform_frame_absent (raw_input w) c Hid Hsrc Hpol) as Habs.
  pose proof (transform_frame_nrows (raw_input w)) as Hnr.
  destruct (transform_frame (raw_input w)) as [[[]|e] d2]; [| done]. simpl in *.
  destruct (project_spec d2) as (b' & Eb' & _ & _ & Hcols).
  rewrite Eb' in Eb. injection Eb as ->.
  rewrite (Hcols c Hc), Habs. simpl. by rewrite Hnr, map_replicate_None.
Qed.

End Contract.

Lemma written_batch_contract_witness :
  let out := @main example_runtime (example_deployment contract_policy) ModeTransform
               (example_world contract_frame) in
  exists b,
    processed_records out.2 = [] ++ [b] /\
    column_names b =
      ["id"; "pickup_datetime"; "dropoff_datetime"; "passenger_count"; "trip_distance";
       "rate_code"; "store_and_fwd"; "payment_type"; "fare_amount"] /\
    nrows b = 1%nat /\
    assoc "dropoff_datetime" (columns b) = Some [VNone].
Proof.
  destruct (@written_batch_contract example_runtime (example_deployment contract_policy)
              (example_world contract_frame))
    as (b & Hb & Hnames & Hn & Hnull).
  - reflexivity.
  - vm_compute. reflexivity.
  - exists b. split; [exact Hb |]. split; [exact Hnames |]. split; [exact Hn |].
    apply (Hnull "dropoff_datetime").
    + by apply (bool_decide_unpack ("dropoff_datetime" ∈ target_cols)).
    + discriminate.
    + by apply (bool_decide_unpack
                  ("dropoff_datetime" ∉ ["pickup_datetime"; "trip_distance"; "vendor"])).
    + by apply (bool_decide_unpack
                  ("dropoff_datetime" ∉ ["pickup_datetime"; "trip_distance"; "rate_code"])).
Defined.

(** C1 as stated fails: [id] and [rate_code] are contract columns the source
    lacks, and in the batch written neither is null: [id] holds the
    synthesized token and [rate_code] the policy default. *)
Lemma absent_contract_column_not_null :
  let out := @main example_runtime (example_deployment contract_policy) ModeTransform
               (example_world contract_frame) in
  ("id" ∉ column_names contract_frame) /\
  ("rate_code" ∉ column_names contract_frame) /\
  out.1 = Ok tt /\
  processed_records out.2 =
    [ {| nrows := 1;
         columns :=
           [("id", [VStr "ec3d2e49c47428300dc40e7f68d1dcace39b28d86c3c4c18bf5a29e247decf77"]);
            ("pickup_datetime", [VTime 1709287200000000000]);
            ("dropoff_datetime", [VNone]);
            ("passenger_count", [VNone]);
            ("trip_distance", [VFloat 1.0]);
            ("rate_code", [VInt 1]);
            ("store_and_fwd", [VNone]);
            ("payment_type", [VNone]);
            ("fare_amount", [VNone])] |} ].
Proof.
  cbv zeta.
  split; [by apply (bool_decide_unpack ("id" ∉ ["pickup_datetime"; "trip_distance"; "vendor"])) |].
  split; [by apply (bool_decide_unpack
                      ("rate_code" ∉ ["pickup_datetime"; "trip_distance"; "vendor"])) |].
  split; vm_compute; reflexivity.
Qed.

(** * Numeric columns *)

Section Numeric.
Context `{Runtime} `{Deployment}.
Implicit Types (w : World) (d : DataFrame) (l : loc) (c : string) (s : Series).

Lemma writable_cell c c' i x : c <> c' -> writable c' (cell c i x).
Proof.
  intros Hne d s' (s & Es & Hx). exists s. split; [| done].
  simpl. by rewrite assoc_set_ne.
Qed.

(** The default fill leaves a cell that is not null as it is. *)
Lemma stable_fill_defaults_body_cell c i x p :
  isna x = false -> stable (cell c i x) (fill_defaults_body p).
Proof.
  intros Hx. apply stable_for_each. intros [col val] _.
  change (stable (cell c i x) (fill_one col val)).
  destruct (decide (c = col)) as [<-|Hne]; [| by apply stable_fill_one, writable_cell].
  intros d (s & Es & Hs). rewrite (fill_one_present _ _ _ _ Es).
  destruct (fillna s val) as [s'|e] eqn:Ef; simpl; [| by exists s].
  unfold setitem. case_bool_decide; simpl; [| by exists s].
  exists s'. split; [apply assoc_set_eq |].
  apply fillna_ok_inv in Ef as [_ ->]. by rewrite map_lookup, Hs; simpl; rewrite Hx.
Qed.

Lemma update_if_present_ok c f d d' s :
  update_if_present c f d = (Ok tt, d') ->
  assoc c (columns d) = Some s ->
  exists s', f s = Ok s' /\ assoc c (columns d') = Some s'.
Proof.
  intros E Es. rewrite (update_if_present_run _ _ _ _ Es) in E.
  destruct (f s) as [s'|e]; [| done]. exists s'. split; [done |].
  apply setitem_ok_inv in E as [_ ->]. apply assoc_set_eq.
Qed.



(** The statements of [transform_df] on a frame, one after the other. *)
Lemma transform_frame_ok_inv d d' :
  transform_frame d = (Ok tt, d') ->
  exists d1 d2 d3 d4 d5,
    fill_defaults_body DEFAULTS d = (Ok tt, d1) /\
    derive_id d1 = (Ok tt, d2) /\
    for_each ["pickup_datetime"; "dropoff_datetime"]
      (fun c => update_if_present c (parse_datetimes c)) d2 = (Ok tt, d3) /\
    update_if_present "trip_distance" (coerce_numeric "trip_distance") d3 = (Ok tt, d4) /\
    update_if_present "passenger_count" (coerce_int "passenger_count") d4 = (Ok tt, d5) /\
    update_if_present "fare_amount" (coerce_numeric "fare_amount") d5 = (Ok tt, d').
Proof.
  unfold transform_frame, transform_df_body. intros E.
  apply bind_ok_inv in E as ([] & d1 & E1 & E).
  apply bind_ok_inv in E as ([] & d2 & E2 & E).
  apply bind_ok_inv in E as ([] & d3 & E3 & E).
  apply bind_ok_inv in E as ([] & d4 & E4 & E).
  apply bind_ok_inv in E as ([] & d5 & E5 & E).
  by exists d1, d2, d3, d4, d5.
Qed.


End Numeric.





(** * Dirty cells do not end a run *)

Section Totality.
Context `{Runtime} `{Deployment}.
Implicit Types (w : World) (d : DataFrame) (l : loc) (c : string) (s : Series).

Lemma derive_id_rehash d ids :
  assoc "id" (columns d) = Some ids ->
  derive_id d = setitem "id" (map (fun x => if notna x then hmac_hash x else VNone) ids) d.
Proof.
  intros Ei. unfold derive_id. rewrite bind_run, (contains_true _ _ _ Ei). simpl.
  unfold st_bind, getitem. by rewrite Ei.
Qed.

Lemma derive_id_total d :
  wf_frame d ->
  is_Some (assoc "pickup_datetime" (columns d)) ->
  is_Some (assoc "trip_distance" (columns d)) ->
  exists d', derive_id d = (Ok tt, d').
Proof.
  intros Hwf [p Ep] [t Et]. destruct (assoc "id" (columns d)) as [ids|] eqn:Ei.
  - rewrite (derive_id_rehash _ _ Ei), setitem_run; [by eexists |].
    rewrite length_map. by apply (wf_column_length _ "id").
  - rewrite (derive_id_synthesize _ _ _ Ei Ep Et), setitem_run; [by eexists |].
    unfold str_join, astype_str.
    rewrite length_map, length_zip_with, !length_map.
    rewrite (wf_column_length _ _ _ Hwf Ep), (wf_column_length _ _ _ Hwf Et). lia.
Qed.

Lemma update_if_present_total c f d :
  wf_frame d ->
  (forall s, assoc c (columns d) = Some s -> exists s', f s = Ok s' /\ length s' = length s) ->
  exists d', update_if_present c f d = (Ok tt, d').
Proof.
  intros Hwf Hf. destruct (assoc c (columns d)) as [s|] eqn:Es.
  - rewrite (update_if_present_run _ _ _ _ Es).
    destruct (Hf s eq_refl) as (s' & -> & Hlen).
    rewrite setitem_run; [by eexists |]. rewrite Hlen. by apply (wf_column_length _ c).
  - rewrite (update_if_present_absent _ _ _ Es). by eexists.
Qed.

Lemma astype_int_total s :
  Forall (fun x => exists y, astype_int_cell x = Ok y) s ->
  exists s', astype_int s = Ok s' /\ length s' = length s.
Proof.
  induction 1 as [|x s [y Ey] _ (s' & Es' & Hlen)]; simpl; [by exists [] |].
  rewrite Ey, Es'. exists (y :: s'). simpl. by rewrite Hlen.
Qed.

Lemma to_numeric_cell_number x :
  (exists z, to_numeric_cell x = VInt z) \/ (exists f, to_numeric_cell x = VFloat f).
Proof.
  destruct x; simpl; eauto.
  destruct (parse_number s) as [[z|f]|]; simpl; eauto.
Qed.

(** The integer cast succeeds on a column of countable cells whose nulls
    were filled with an integer. *)
Lemma coerce_int_total c s z :
  dict_get DEFAULTS c = VInt z ->
  Forall countable s ->
  exists s', coerce_int c s = Ok s' /\ length s' = length s.
Proof.
  intros Hz Hs. unfold coerce_int, coerce_numeric. rewrite Hz. simpl.
  destruct (astype_int_total
              (map (fun x => if isna x then VInt z else x) (to_numeric_coerce s)))
    as (s' & -> & Hlen).
  - unfold to_numeric_coerce. rewrite !Forall_fmap. eapply Forall_impl; [exact Hs |].
    intros x Hx. simpl.
    destruct (to_numeric_cell_number x) as [[z' E]|[f E]]; rewrite E; simpl; [by eexists |].
    destruct (PrimFloat.is_nan f) eqn:Enan; simpl; [by eexists |].
    destruct (Hx f E Enan) as [n ->]. by eexists.
  - exists s'. split; [done |]. unfold to_numeric_coerce in Hlen. by rewrite !length_map in Hlen.
Qed.

Lemma countable_filled z x : countable x -> countable (if isna x then VInt z else x).
Proof. intros Hx. destruct (isna x); [| done]. by intros f. Qed.

Lemma dict_get_assoc p c : dict_get p c <> VNone -> exists v, assoc c p = Some v /\ v <> VNone.
Proof. unfold dict_get. destruct (assoc c p) as [v|]; simpl; [eauto | done]. Qed.

Lemma transform_frame_total d :
  complete_policy ->
  wf_frame d ->
  (forall s, assoc "passenger_count" (columns d) = Some s -> Forall countable s) ->
  exists d', transform_frame d = (Ok tt, d').
Proof.
  intros (Hnd & Hval & Hdt & Hnum & z & Hpc) Hwf Hcount.
  (* the default fill *)
  destruct (fill_defaults_body_spec DEFAULTS d Hwf Hnd) as (d1 & E1 & Hn1 & Hcols1).
  { intros c v s Hin _. by apply (Hval c v). }
  pose proof (stable_run _ _ _ _ _ (stable_wf_fill_defaults_body DEFAULTS) Hwf E1) as Hwf1.
  assert (forall c, dict_get DEFAULTS c <> VNone -> is_Some (assoc c (columns d1))) as Hnamed.
  { intros c (v & Ev & _)%dict_get_assoc. rewrite Hcols1. unfold filled_column.
    rewrite Ev. eauto. }
  assert (forall c, c ∈ ["pickup_datetime"; "dropoff_datetime"] -> dict_get DEFAULTS c <> VNone)
    as Hdt'.
  { intros c Hc. destruct (Hdt c Hc) as (v & Ev & Hv). intros E. rewrite E in Ev.
    simpl in Ev. congruence. }
  (* the identity column *)
  destruct (derive_id_total d1 Hwf1) as (d2 & E2).
  { apply Hnamed, Hdt'. left. }
  { apply Hnamed, Hnum. left. }
  pose proof (stable_run _ _ _ _ _ stable_wf_derive_id Hwf1 E2) as Hwf2.
  (* the two datetime columns *)
  destruct (update_if_present_total "pickup_datetime" (parse_datetimes "pickup_datetime") d2 Hwf2)
    as (d3a & E3a).
  { intros s _. destruct (Hdt "pickup_datetime") as (v & Ev & Hv); [left |].
    by apply (parse_datetimes_total _ _ v). }
  pose proof (stable_run _ _ _ _ _ (stable_wf_update_if_present _ _) Hwf2 E3a) as Hwf3a.
  destruct (update_if_present_total "dropoff_datetime" (parse_datetimes "dropoff_datetime")
              d3a Hwf3a) as (d3 & E3).
  { intros s _. destruct (Hdt "dropoff_datetime") as (v & Ev & Hv); [right; left |].
    by apply (parse_datetimes_total _ _ v). }
  pose proof (stable_run _ _ _ _ _ (stable_wf_update_if_present _ _) Hwf3a E3) as Hwf3.
  (* the distance *)
  destruct (update_if_present_total "trip_distance" (coerce_numeric "trip_distance") d3 Hwf3)
    as (d4 & E4).
  { intros s _. apply coerce_numeric_total, Hnum. left. }
  pose proof (stable_run _ _ _ _ _ (stable_wf_update_if_present _ _) Hwf3 E4) as Hwf4.
  (* the passenger count: its cells are still those the fill left *)
  assert (assoc "passenger_count" (columns d4) = assoc "passenger_count" (columns d1)) as Hpc4.
  { eapply (stable_run (fun d' => assoc "passenger_count" (columns d') = _));
      [| | exact E4]; [by apply stable_update_if_present, writable_column |].
    eapply (stable_run (fun d' => assoc "passenger_count" (columns d') = _));
      [| | exact E3]; [by apply stable_update_if_present, writable_column |].
    eapply (stable_run (fun d' => assoc "passenger_count" (columns d') = _));
      [| | exact E3a]; [by apply stable_update_if_present, writable_column |].
    eapply (stable_run (fun d' => assoc "passenger_count" (columns d') = _));
      [| | exact E2]; [by apply stable_derive_id, writable_column | done]. }
  destruct (update_if_present_total "passenger_count" (coerce_int "passenger_count") d4 Hwf4)
    as (d5 & E5).
  { intros s Es. apply (coerce_int_total _ _ z Hpc).
    rewrite Hpc4, Hcols1 in Es. unfold filled_column in Es.
    destruct (dict_get_assoc DEFAULTS "passenger_count") as (v & Ev & _); [by rewrite Hpc |].
    assert (v = VInt z) as -> by (unfold dict_get in Hpc; by rewrite Ev in Hpc).
    rewrite Ev in Es. injection Es as <-.
    destruct (assoc "passenger_count" (columns d)) as [s0|] eqn:E0.
    - unfold fill_cells. rewrite Forall_fmap. eapply Forall_impl; [exact (Hcount s0 eq_refl) |].
      intros x Hx. by apply countable_filled.
    - apply Forall_replicate. by intros f. }
  pose proof (stable_run _ _ _ _ _ (stable_wf_update_if_present _ _) Hwf4 E5) as Hwf5.
  (* the fare *)
  destruct (update_if_present_total "fare_amount" (coerce_numeric "fare_amount") d5 Hwf5)
    as (d6 & E6).
  { intros s _. apply coerce_numeric_total, Hnum. right. left. }
  exists d6. unfold transform_frame, transform_df_body.
  rewrite bind_run, E1. simpl. rewrite bind_run, E2. simpl.
  rewrite bind_run. simpl. rewrite (bind_run (update_if_present "pickup_datetime" _)), E3a.
  simpl. rewrite (bind_run (update_if_present "dropoff_datetime" _)), E3. simpl.
  rewrite bind_run, E4. simpl. by rewrite bind_run, E5.
Qed.

(** Under a complete policy a transform run ends normally on every
    well-formed staging table whose passenger counts are not infinite. *)
Lemma transform_run_total w :
  complete_policy ->
  wf_frame (raw_input w) ->
  (forall s, assoc "passenger_count" (columns (raw_input w)) = Some s -> Forall countable s) ->
  (main ModeTransform w).1 = Ok tt.
Proof.
  intros Hpol Hwf Hcount. rewrite main_ModeTransform.
  destruct (transform_arm_written (run_id_of w) (draw_uuid w)) as [-> _]. simpl.
  unfold ending. destruct (empty_frame (raw_input w)); [done |].
  unfold batch_of. destruct (transform_frame_total _ Hpol Hwf Hcount) as (d' & ->).
  by destruct (project_spec d') as (b & -> & _).
Qed.

End Totality.

(** * In-place update *)

Section InPlace.
Context `{Runtime} `{Deployment}.
Implicit Types (w : World) (d : DataFrame) (l : loc) (c : string) (s : Series).

(** C9, as the code has it. [fill_defaults] and [transform_df] work in
    place: the reference they return is the one they were given, the frame
    behind it is the one their statements leave (also when they raise), and
    nothing else of the world changes: no other frame, not the staging table,
    not ClickHouse. A cell that does not parse is never an error of
    [pd.to_numeric] or [pd.to_datetime]: with a policy default to fill in,
    both coercions end normally on every column; and under a complete policy
    [transform_df] ends normally on every well-formed batch whose passenger
    counts are not infinite, whatever else its cells hold. *)
Theorem transform_in_place :
  (forall l p w d, heap w !! l = Some d ->
     fill_defaults l p w =
       (match (fill_defaults_body p d).1 with Ok _ => Ok l | Raise e => Raise e end,
        set_heap <[l := (fill_defaults_body p d).2]> w)) /\
  (forall l w d, heap w !! l = Some d ->
     transform_df l w =
       (match (transform_frame d).1 with Ok _ => Ok l | Raise e => Raise e end,
        set_heap <[l := (transform_frame d).2]> w)) /\
  (forall c s, dict_get DEFAULTS c <> VNone ->
     exists s', coerce_numeric c s = Ok s' /\ length s' = length s) /\
  (forall c s v, to_datetime_scalar (dict_get DEFAULTS c) = Ok v -> v <> VNone ->
     exists s', parse_datetimes c s = Ok s' /\ length s' = length s) /\
  (forall l w d, heap w !! l = Some d ->
     complete_policy -> wf_frame d ->
     (forall s, assoc "passenger_count" (columns d) = Some s -> Forall countable s) ->
     exists d', transform_df l w = (Ok l, set_heap <[l := d']> w)).
Proof.
  split; [apply fill_defaults_run |]. split; [apply transform_df_run |].
  split; [apply coerce_numeric_total |]. split; [apply parse_datetimes_total |].
  intros l w d Hl Hpol Hwf Hcount.
  destruct (transform_frame_total d Hpol Hwf Hcount) as (d' & E).
  exists d'. by rewrite (transform_df_run _ _ _ Hl), E.
Qed.

End InPlace.

(** C9 as stated fails: after [fill_defaults(df, {"trip_distance": 1.0})]
    the caller's frame, which held a null, holds the default, and the frame
    returned is that same object. *)
Lemma fill_defaults_mutates_caller :
  let out := fill_defaults 7%nat [("trip_distance", VFloat 1.0)] caller_world in
  heap caller_world !! 7%nat = Some caller_frame /\
  out.1 = Ok 7%nat /\
  heap out.2 !! 7%nat = Some {| nrows := 1; columns := [("trip_distance", [VFloat 1.0])] |} /\
  heap out.2 !! 7%nat <> Some caller_frame.
Proof.
  cbv zeta. split; [done |]. split; [done |].
  assert (heap (fill_defaults 7%nat [("trip_distance", VFloat 1.0)] caller_world).2 !! 7%nat
          = Some {| nrows := 1; columns := [("trip_distance", [VFloat 1.0])] |}) as E.
  { rewrite (fill_defaults_run _ _ _ caller_frame) by done. simpl. by rewrite lookup_insert_eq. }
  split; [exact E |]. rewrite E. by intros [=].
Qed.

Lemma transform_in_place_witness :
  exists d',
    @transform_df example_runtime (example_deployment full_policy) 0%nat scenario_world
    = (Ok 0%nat, set_heap <[0%nat := d']> scenario_world).
Proof.
  apply (proj2 (proj2 (proj2 (proj2
           (@transform_in_place example_runtime (example_deployment full_policy)))))
           0%nat scenario_world scenario_frame).
  - reflexivity.
  - split; [by apply (bool_decide_unpack (NoDup (full_policy.*1))) |].
    split.
    { intros c v Hin. unfold DEFAULTS, full_policy in Hin. simpl in Hin.
      repeat (apply elem_of_cons in Hin as [[= -> ->]|Hin]; [done |]).
      by apply elem_of_nil in Hin. }
    split.
    { intros c Hc.
      repeat (apply elem_of_cons in Hc as [->|Hc]; [by eexists |]).
      by apply elem_of_nil in Hc. }
    split.
    { intros c Hc.
      repeat (apply elem_of_cons in Hc as [->|Hc]; [done |]).
      by apply elem_of_nil in Hc. }
    by exists 1%Z.
  - split; [by apply (bool_decide_unpack
                        (NoDup ["pickup_datetime"; "trip_distance"; "passenger_count"])) |].
    by repeat constructor.
  - intros s [= <-]. apply Forall_singleton. intros f [= <-] Hnan. done.
Defined.

(** * Association lists under a map *)

Section AssocMaps.
Context {A B : Type}.


Lemma map_values_names (f : string -> A -> B) (l : list (string * A)) :
  (map (fun cs => (cs.1, f cs.1 cs.2)) l).*1 = l.*1.
Proof. induction l as [|[k a] l IH]; [done |]. cbn [map fmap list_fmap fst]. simpl. by f_equal. Qed.


End AssocMaps.

(** * The staging table *)

Section Staging.
Context `{Runtime} `{Deployment}.
Implicit Types (w : World) (d t csv : DataFrame) (c : string).

Lemma csv_values_length csv : length (csv_values csv) = nrows csv.
Proof. unfold csv_values. by rewrite length_map, to_records_length. Qed.

Lemma csv_values_nil csv : csv_values csv = [] <-> nrows csv = 0%nat.
Proof.
  rewrite <- (csv_values_length csv). split; [by intros -> |].
  by destruct (csv_values csv).
Qed.

(** The three ways [ingest_csv_to_postgres] goes on a file that exists. *)
Lemma ingest_run path w csv :
  files w !! path = Some csv ->
  exists h,
    ingest_csv_to_postgres path w =
      if bool_decide (nrows csv = 0%nat) then (Ok 0%nat, set_heap (fun _ => h) w)
      else match pg_insert (column_names csv) (csv_values csv) (raw_input w) with
           | Raise e => (Raise e, set_heap (fun _ => h) w)
           | Ok t =>
               (Ok (nrows csv),
                set_heap (fun _ => h)
                  (add_stdout (inserted_notice (nrows csv)) (set_raw_input t w)))
           end.
Proof.
  intros Hf. exists (<[fresh (dom (heap w)) := csv]> (heap w)).
  unfold ingest_csv_to_postgres. rewrite bind_run. cbn [get fst snd]. rewrite Hf.
  rewrite bind_run. cbn [alloc fst snd].
  rewrite bind_run, (on_frame_get _ _ csv) by (simpl; apply lookup_insert_eq).
  cbn [fst snd]. fold (csv_values csv). rewrite bind_run.
  destruct (decide (nrows csv = 0%nat)) as [E0|E0].
  - rewrite (bool_decide_eq_true_2 (csv_values csv = [])) by by apply csv_values_nil.
    rewrite (bool_decide_eq_true_2 (nrows csv = 0%nat)) by done.
    simpl. by rewrite csv_values_length, E0.
  - rewrite (bool_decide_eq_false_2 (csv_values csv = [])) by by rewrite csv_values_nil.
    rewrite (bool_decide_eq_false_2 (nrows csv = 0%nat)) by done.
    cbn [negb when]. rewrite bind_run. cbn [get fst snd]. rewrite bind_run.
    cbn [lift fst snd set_heap raw_input].
    destruct (pg_insert _ _ _) as [t|e]; [| done].
    simpl. by rewrite csv_values_length.
Qed.




End Staging.

(** * Ingest *)

Section Ingest.
Context `{Runtime} `{Deployment}.
Implicit Types (w : World) (d t csv : DataFrame) (c : string).

(** X1. A CSV path at which there is no file is no error:
    [ingest_csv_to_postgres] says so on standard error and returns 0 without
    opening the staging table, and a run in mode ingest ends normally with
    one ingest metric of 0 rows; nothing else of the world changes. *)
Theorem ingest_missing_csv w :
  (forall path, files w !! path = None ->
     ingest_csv_to_postgres path w = (Ok 0%nat, add_stderr ("CSV not found at " +:+ path) w)) /\
  (files w !! INPUT_CSV = None ->
     main ModeIngest w =
       (Ok tt,
        add_stdout "Done."
          (add_metric (ingest_metric (run_id_of w) w 0)
             (read_clock (add_stderr ("CSV not found at " +:+ INPUT_CSV) (draw_uuid w)))))).
Proof.
  assert (forall w path, files w !! path = None ->
     ingest_csv_to_postgres path w = (Ok 0%nat, add_stderr ("CSV not found at " +:+ path) w))
    as Hmiss.
  { intros w' path Hf. unfold ingest_csv_to_postgres. rewrite bind_run.
    cbn [get fst snd]. by rewrite Hf. }
  split; [apply Hmiss |]. intros Hf.
  rewrite main_ModeIngest. by rewrite Hmiss.
Qed.

(** X2. A CSV with a header and no rows sends no INSERT: whatever its
    columns are, also columns the staging table does not have, ingest
    returns 0 and leaves the staging table, both outputs and ClickHouse as
    they were; a run in mode ingest then records an ingest metric of 0
    rows. *)
Theorem ingest_header_only w csv :
  nrows csv = 0%nat ->
  (forall path, files w !! path = Some csv ->
     exists h, ingest_csv_to_postgres path w = (Ok 0%nat, set_heap (fun _ => h) w)) /\
  (files w !! INPUT_CSV = Some csv ->
     exists h,
       main ModeIngest w =
         (Ok tt,
          set_heap (fun _ => h)
            (add_stdout "Done."
               (add_metric (ingest_metric (run_id_of w) w 0) (read_clock (draw_uuid w)))))).
Proof.
  intros Hn. split.
  - intros path Hf. destruct (ingest_run path w csv Hf) as (h & E).
    exists h. by rewrite E, bool_decide_eq_true_2.
  - intros Hf. destruct (ingest_run INPUT_CSV (draw_uuid w) csv Hf) as (h & E).
    exists h. rewrite main_ModeIngest, E, bool_decide_eq_true_2 by done. done.
Qed.



End Ingest.

Lemma ingest_missing_csv_witness :
  @main example_runtime (example_deployment []) ModeIngest (example_world empty_staging) =
    (Ok tt,
     add_stdout "Done."
       (add_metric
          {| run_id := "run-0"; run_time := 0; stage := "ingest"; rows_processed := 0;
             notes := "CSV -> Postgres" |}
          (read_clock
             (add_stderr "CSV not found at /data/green_tripdata_sample.csv"
                (draw_uuid (example_world empty_staging)))))).
Proof.
  apply (proj2 (@ingest_missing_csv example_runtime (example_deployment [])
                  (example_world empty_staging))).
  reflexivity.
Defined.

Lemma ingest_header_only_witness :
  exists h,
    @main example_runtime (example_deployment []) ModeIngest (csv_world header_csv empty_staging) =
      (Ok tt,
       set_heap (fun _ => h)
         (add_stdout "Done."
            (add_metric
               {| run_id := "run-0"; run_time := 0; stage := "ingest"; rows_processed := 0;
                  notes := "CSV -> Postgres" |}
               (read_clock (draw_uuid (csv_world header_csv empty_staging)))))).
Proof.
  apply (proj2 (@ingest_header_only example_runtime (example_deployment [])
                  (csv_world header_csv empty_staging) header_csv eq_refl)).
  vm_compute. reflexivity.
Defined.



(** * Mode clear, and a transform that raises *)

Section ClearMode.
Context `{Runtime} `{Deployment}.
Implicit Types (w : World) (d t csv : DataFrame) (c : string).

(** X5. A run in mode clear truncates the staging table and does nothing
    else: the table keeps its columns and has no rows, no metric is
    recorded, ClickHouse is not touched, and the run prints its two
    notices. A transform run that follows finds nothing to do: it writes no
    batch and records one transform metric of 0 rows. *)
Theorem clear_then_transform w :
  let out := main ModeClear w in
  out = (Ok tt,
         add_stdout "Done."
           (add_stdout "Staging table cleared."
              (set_raw_input (truncated (raw_input w)) (draw_uuid w)))) /\
  nrows (raw_input out.2) = 0%nat /\
  column_names (raw_input out.2) = column_names (raw_input w) /\
  let next := main ModeTransform out.2 in
  next.1 = Ok tt /\
  raw_input next.2 = raw_input out.2 /\
  processed_records next.2 = processed_records w /\
  pipeline_metrics next.2 =
    pipeline_metrics w ++ [transform_metric (run_id_of out.2) out.2 0 "no rows"].
Proof.
  cbv zeta. split; [reflexivity |]. split; [reflexivity |].
  split.
  { unfold column_names. cbn [main snd raw_input set_raw_input add_stdout columns truncated].
    apply (map_values_names (fun _ _ => [])). }
  set (w1 := (main ModeClear w).2).
  destruct (main_transform_empty (run_id_of w1) (draw_uuid w1)) as (h & E); [done |].
  rewrite main_ModeTransform, E. done.
Qed.

(** X6. A transform that raises leaves no trace in ClickHouse: no batch and
    no transform metric. In mode transform the run changes nothing but the
    frames of the process and the count of identifiers drawn; in mode full
    the rows the ingest stage staged and its metric stay. *)
Theorem failed_transform_leaves_no_trace (mode : Mode) w e :
  mode_in_transform_full mode = true ->
  let out := main mode w in
  out.1 = Raise e ->
  processed_records out.2 = processed_records w /\
  (exists ms, pipeline_metrics out.2 = pipeline_metrics w ++ ms /\
              Forall (fun m => stage m = "ingest") ms) /\
  (mode = ModeTransform ->
   batch_of (raw_input w) = Raise e /\
   exists h, out.2 = set_heap (fun _ => h) (draw_uuid w)).
Proof.
  intros Hmode out Hout. subst out.
  assert (forall rid w0 e0,
            (after_transform (main_transform rid w0)).1 = Raise e0 ->
            batch_of (raw_input w0) = Raise e0 /\
            exists h, (after_transform (main_transform rid w0)).2 = set_heap (fun _ => h) w0)
    as Harm.
  { intros rid w0 e0. destruct (main_transform_outcome rid w0) as [h ?|h e1 ? Hb|h b ? ?];
      cbn [after_transform fst snd]; try done.
    intros [= <-]. eauto. }
  destruct mode; try done.
  - rewrite main_ModeTransform in *.
    destruct (Harm _ _ _ Hout) as (Hb & h & E). rewrite E.
    split; [done |]. split; [exists []; by rewrite app_nil_r |]. eauto.
  - rewrite main_ModeFull in *.
    pose proof (ingest_csv_to_postgres_spec INPUT_CSV (draw_uuid w)) as [Hbk _].
    destruct (ingest_csv_to_postgres INPUT_CSV (draw_uuid w)) as [[n|e1] w1].
    + destruct (Harm _ _ _ Hout) as (Hb & h & E). rewrite E.
      injection Hbk as Hpr Hms _ _ _ _. cbn [snd] in *.
      split; [done |]. split; [| done].
      eexists [_]. split; [cbn; by rewrite Hms | by repeat constructor].
    + injection Hbk as Hpr Hms _ _ _ _. cbn [snd] in *.
      split; [done |]. split; [| done]. exists []. by rewrite app_nil_r.
Qed.

End ClearMode.

Lemma failed_transform_leaves_no_trace_witness :
  let out := @main example_runtime (example_deployment scenario_policy_as_stated)
               ModeTransform (example_world scenario_frame) in
  processed_records out.2 = [] /\
  (exists ms, pipeline_metrics out.2 = [] ++ ms /\ Forall (fun m => stage m = "ingest") ms) /\
  (ModeTransform = ModeTransform ->
   @batch_of example_runtime (example_deployment scenario_policy_as_stated) scenario_frame
     = Raise (ValueError "Must specify a fill 'value' or 'method'.") /\
   exists h, out.2 = set_heap (fun _ => h) (draw_uuid (example_world scenario_frame))).
Proof.
  apply (@failed_transform_leaves_no_trace example_runtime
           (example_deployment scenario_policy_as_stated) ModeTransform
           (example_world scenario_frame)
           (ValueError "Must specify a fill 'value' or 'method'.")).
  - reflexivity.
  - vm_compute. reflexivity.
Defined.

(** * A batch with identifiers of its own *)

Section Rehash.
Context `{Runtime} `{Deployment}.
Implicit Types (w : World) (d t csv : DataFrame) (c : string).

Lemma transform_frame_split d d' :
  transform_frame d = (Ok tt, d') ->
  exists d1 d2,
    fill_defaults_body DEFAULTS d = (Ok tt, d1) /\
    derive_id d1 = (Ok tt, d2) /\
    normalize_rest d2 = (Ok tt, d').
Proof.
  intros E. apply bind_ok_inv in E as ([] & d1 & E1 & E).
  rewrite transform_df_body_unfold in E. apply bind_ok_inv in E as ([] & d2 & E2 & E).
  eauto.
Qed.

Lemma stable_normalize_rest_cell i x :
  stable (cell "id" i x) normalize_rest.
Proof.
  apply stable_normalize_rest. intros c _ Hne. apply writable_cell. congruence.
Qed.

Lemma rehash_frame_cell d d' i x :
  transform_frame d = (Ok tt, d') ->
  cell "id" i x d ->
  (isna x = false \/ "id" ∉ DEFAULTS.*1) ->
  cell "id" i (if notna x then hmac_hash x else VNone) d'.
Proof.
  intros E Hx Hcase. apply transform_frame_split in E as (d1 & d2 & E1 & E2 & E3).
  assert (cell "id" i x d1) as Hx1.
  { destruct Hcase as [Hna|Hpol].
    - exact (stable_run _ _ _ _ _ (stable_fill_defaults_body_cell "id" i x DEFAULTS Hna) Hx E1).
    - refine (stable_run _ _ _ _ _ (stable_fill_defaults_body _ _ _) Hx E1).
      intros c Hc. apply writable_cell. intros <-. done. }
  destruct Hx1 as (ids & Hids & Hi).
  rewrite (derive_id_rehash _ _ Hids) in E2.
  apply setitem_ok_inv in E2 as [_ ->].
  refine (stable_run _ _ _ _ _ (stable_normalize_rest_cell i _) _ E3).
  exists (map (fun x => if notna x then hmac_hash x else VNone) ids).
  split; [apply assoc_set_eq |]. by rewrite map_lookup, Hi.
Qed.

Lemma transform_frame_has_id d d' :
  transform_frame d = (Ok tt, d') -> is_Some (assoc "id" (columns d')).
Proof.
  intros E. apply transform_frame_split in E as (d1 & d2 & E1 & E2 & E3).
  assert (exists ids, assoc "id" (columns d2) = Some ids) as (ids & Hids).
  { unfold derive_id in E2. apply bind_ok_inv in E2 as (b & d0 & [= <- <-] & E2).
    destruct (negb _).
    - apply bind_ok_inv in E2 as (p & ? & _ & E2). apply bind_ok_inv in E2 as (t & ? & _ & E2).
      apply setitem_ok_inv in E2 as [_ ->]. eexists. apply assoc_set_eq.
    - apply bind_ok_inv in E2 as (p & ? & _ & E2).
      apply setitem_ok_inv in E2 as [_ ->]. eexists. apply assoc_set_eq. }
  exists ids.
  refine (stable_run (fun d => assoc "id" (columns d) = Some ids) _ _ _ _ _ Hids E3).
  apply stable_normalize_rest. intros c _ Hne. apply writable_column. congruence.
Qed.

Lemma transform_df_ok_inv l w w' :
  transform_df l w = (Ok l, w') ->
  exists d d', heap w !! l = Some d /\ transform_frame d = (Ok tt, d') /\
               w' = set_heap <[l := d']> w.
Proof.
  intros E. destruct (heap w !! l) as [d|] eqn:Hl.
  - rewrite (transform_df_run _ _ _ Hl) in E.
    destruct (transform_frame d) as [[[]|e] d'] eqn:Et; [| done].
    injection E as <-. eauto.
  - unfold transform_df, fill_defaults, st_bind, on_frame in E. by rewrite Hl in E.
Qed.

(** X7. A batch that comes with an [id] column keeps it, hashed cell by
    cell: after [transform_df] a row whose id was not null holds the token of
    that id, and a row whose id was null holds [None] unless the policy
    names [id]. The frame is changed in place, so [transform_df] is not
    idempotent on it: a second call on the same frame hashes the tokens of
    the first. *)
Theorem existing_id_rehashed l w w1 :
  transform_df l w = (Ok l, w1) ->
  (forall d i x, heap w !! l = Some d -> cell "id" i x d ->
     exists d1, heap w1 !! l = Some d1 /\
       (isna x = false -> cell "id" i (hmac_hash x) d1) /\
       (isna x = true -> "id" ∉ DEFAULTS.*1 -> cell "id" i VNone d1)) /\
  (forall w2, transform_df l w1 = (Ok l, w2) ->
     exists d1 d2 ids,
       heap w1 !! l = Some d1 /\ heap w2 !! l = Some d2 /\
       assoc "id" (columns d1) = Some ids /\
       forall i tok, ids !! i = Some tok -> isna tok = false ->
         cell "id" i (hmac_hash tok) d2).
Proof.
  intros E. split.
  - intros d i x Hl Hx.
    apply transform_df_ok_inv in E as (d0 & d1 & Hl0 & Et & ->).
    assert (d0 = d) as -> by congruence.
    exists d1. split; [simpl; apply lookup_insert_eq |]. split.
    + intros Hna. pose proof (rehash_frame_cell _ _ i x Et Hx (or_introl Hna)) as Hc.
      unfold notna in Hc. by rewrite Hna in Hc.
    + intros Hna Hpol. pose proof (rehash_frame_cell _ _ i x Et Hx (or_intror Hpol)) as Hc.
      unfold notna in Hc. by rewrite Hna in Hc.
  - intros w2 E2.
    apply transform_df_ok_inv in E as (d0 & d1 & Hl0 & Et & ->).
    apply transform_df_ok_inv in E2 as (d1' & d2 & Hl1 & Et2 & ->).
    assert (d1' = d1) as ->.
    { simpl in Hl1. rewrite lookup_insert_eq in Hl1. congruence. }
    destruct (transform_frame_has_id _ _ Et) as (ids & Hids).
    exists d1, d2, ids. split; [done |]. split; [simpl; apply lookup_insert_eq |].
    split; [done |]. intros i tok Hi Hna.
    pose proof (rehash_frame_cell _ _ i tok Et2 (ex_intro _ ids (conj Hids Hi)) (or_introl Hna))
      as Hc.
    unfold notna in Hc. by rewrite Hna in Hc.
Qed.

End Rehash.

Lemma existing_id_rehashed_witness :
  let w := set_heap <[0%nat := half_frame]> (example_world half_frame) in
  let w1 := (@transform_df example_runtime (example_deployment half_policy) 0%nat w).2 in
  exists d1,
    heap w1 !! 0%nat = Some d1 /\
    cell "id" 0 (VStr "d8835af74d9eeb16f8b44c78bd7cd54bea3a15622e91502d15ebd5f1da500b9e") d1.
Proof.
  intros w w1.
  destruct (proj1 (@existing_id_rehashed example_runtime (example_deployment half_policy)
                     0%nat w w1 ltac:(vm_compute; reflexivity))
              half_frame 0%nat (VStr "a") eq_refl
              (ex_intro _ [VStr "a"] (conj eq_refl eq_refl)))
    as (d1 & Hd1 & Hhash & _).
  exists d1. split; [exact Hd1 |].
  replace (VStr "d8835af74d9eeb16f8b44c78bd7cd54bea3a15622e91502d15ebd5f1da500b9e")
    with (@hmac_hash example_runtime (example_deployment half_policy) (VStr "a"))
    by (vm_compute; reflexivity).
  by apply Hhash.
Defined.

(** * The default fill, repeated *)

Section Repeatable.
Context `{Runtime} `{Deployment}.
Implicit Types (w : World) (d t csv : DataFrame) (c : string).

Lemma assoc_set_same {A} k (a : A) (l : list (string * A)) :
  assoc k l = Some a -> assoc_set k a l = l.
Proof.
  induction l as [|[k' a'] l IH]; [done |]. cbn [assoc assoc_set].
  destruct (String.eqb k k') eqn:E.
  - apply String.eqb_eq in E. by intros [= ->]; subst.
  - intros Hl. by rewrite IH.
Qed.

Lemma fill_cells_idem v (s : list value) : fill_cells v (fill_cells v s) = fill_cells v s.
Proof.
  unfold fill_cells. rewrite map_map. apply map_ext. intros x.
  destruct (isna x) eqn:E; [| by rewrite E]. by destruct (isna v).
Qed.

Lemma fill_cells_replicate v n : fill_cells v (replicate n v) = replicate n v.
Proof.
  unfold fill_cells. induction n as [|n IH]; [done |]. cbn [replicate map].
  rewrite IH. by destruct (isna v).
Qed.

Lemma fill_one_settled col val d s :
  val <> VNone -> wf_frame d ->
  assoc col (columns d) = Some s -> fill_cells val s = s ->
  fill_one col val d = (Ok tt, d).
Proof.
  intros Hval Hwf Hs Hfix. rewrite (fill_one_present _ _ _ _ Hs), fillna_ok by done.
  fold (fill_cells val s). rewrite Hfix.
  rewrite setitem_run by (by apply (wf_column_length d col)).
  unfold with_column. rewrite (assoc_set_same _ _ _ Hs). by destruct d.
Qed.

Lemma fill_defaults_body_settled p d :
  wf_frame d ->
  (forall c v, (c, v) ∈ p ->
     v <> VNone /\ exists s, assoc c (columns d) = Some s /\ fill_cells v s = s) ->
  fill_defaults_body p d = (Ok tt, d).
Proof.
  intros Hwf. induction p as [|[c v] p IH]; intros Hp; [done |].
  rewrite fill_defaults_body_cons, bind_run.
  destruct (Hp c v) as (Hv & s & Hs & Hfix); [left |].
  rewrite (fill_one_settled _ _ _ _ Hv Hwf Hs Hfix). cbn [fst snd].
  apply IH. intros c' v' Hin. apply Hp. by right.
Qed.

(** X8. Filling twice is filling once. Under a policy with distinct keys
    and no [None] default, [fill_defaults] ends normally on a well-formed
    batch, and a second call on the batch it returned ends normally and
    changes nothing. *)
Theorem fill_defaults_idempotent (p : list (string * value)) l w d :
  heap w !! l = Some d ->
  wf_frame d ->
  NoDup p.*1 ->
  (forall c v, (c, v) ∈ p -> v <> VNone) ->
  exists w1,
    fill_defaults l p w = (Ok l, w1) /\
    fill_defaults l p w1 = (Ok l, w1).
Proof.
  intros Hl Hwf Hnd Hval.
  destruct (fill_defaults_body_spec p d Hwf Hnd) as (d1 & E & Hn & Hcols).
  { intros c v s Hin _. by apply (Hval c v). }
  assert (wf_frame d1) as Hwf1.
  { exact (stable_run _ _ _ _ _ (stable_wf_fill_defaults_body p) Hwf E). }
  exists (set_heap <[l := d1]> w). split; [by rewrite (fill_defaults_run _ _ _ _ Hl), E |].
  rewrite (fill_defaults_run _ _ _ d1) by (simpl; apply lookup_insert_eq).
  rewrite fill_defaults_body_settled; [| done |].
  - unfold set_heap. cbn [fst snd heap]. by rewrite insert_insert_eq.
  - intros c v Hin. split; [by apply (Hval c v) |].
    rewrite Hcols. unfold filled_column. rewrite (assoc_elem_of _ _ _ Hnd Hin).
    eexists. split; [reflexivity |].
    destruct (assoc c (columns d)); [apply fill_cells_idem | apply fill_cells_replicate].
Qed.

End Repeatable.

Lemma fill_defaults_idempotent_witness :
  exists w1,
    fill_defaults 0%nat fill_example_policy
        (set_heap <[0%nat := fill_example_frame]> (example_world fill_example_frame))
      = (Ok 0%nat, w1) /\
    fill_defaults 0%nat fill_example_policy w1 = (Ok 0%nat, w1).
Proof.
  apply (fill_defaults_idempotent fill_example_policy 0%nat
           (set_heap <[0%nat := fill_example_frame]> (example_world fill_example_frame))
           fill_example_frame).
  - reflexivity.
  - split; [by apply (bool_decide_unpack (NoDup ["trip_distance"; "vendor"])) |].
    by repeat constructor.
  - by apply (bool_decide_unpack (NoDup ["trip_distance"; "passenger_count"])).
  - intros c v Hin. unfold fill_example_policy in Hin.
    repeat (apply elem_of_cons in Hin as [[= -> ->]|Hin]; [done |]).
    by apply elem_of_nil in Hin.
Defined.

(** * What the normalized columns hold *)

Section Typed.
Context `{Runtime} `{Deployment}.
Implicit Types (w : World) (d t csv : DataFrame) (c : string).

Lemma update_if_present_other c c' f d d' :
  c <> c' -> update_if_present c' f d = (Ok tt, d') ->
  assoc c (columns d') = assoc c (columns d).
Proof.
  intros Hne E. destruct (assoc c' (columns d)) as [s|] eqn:Hs.
  - rewrite (update_if_present_run _ _ _ _ Hs) in E. destruct (f s) as [s'|]; [| done].
    apply setitem_ok_inv in E as [_ ->]. simpl. by apply assoc_set_ne.
  - rewrite update_if_present_absent in E by done. by injection E as <-.
Qed.

Lemma update_if_present_inv c f d d' s' :
  update_if_present c f d = (Ok tt, d') -> assoc c (columns d') = Some s' ->
  exists s, assoc c (columns d) = Some s /\ f s = Ok s'.
Proof.
  intros E Hs'. destruct (assoc c (columns d)) as [s|] eqn:Hs.
  - destruct (update_if_present_ok _ _ _ _ _ E Hs) as (s1 & Hf & Hs1).
    exists s. split; [done |]. congruence.
  - rewrite update_if_present_absent in E by done. injection E as <-. congruence.
Qed.

Lemma astype_int_ints (s s' : list value) :
  astype_int s = Ok s' -> Forall (fun x => is_int x = true) s'.
Proof.
  revert s'. induction s as [|x s IH]; intros s'; cbn [astype_int].
  - by intros [= <-].
  - destruct (astype_int_cell x) as [y|] eqn:Ex; [| done].
    destruct (astype_int s) as [r|]; [| done]. intros [= <-].
    constructor; [| by apply IH].
    destruct x; simpl in Ex; try done; repeat case_match; by simplify_eq.
Qed.

Lemma coerce_numeric_numbers c (s s' : list value) :
  coerce_numeric c s = Ok s' ->
  Forall (fun x => is_number x = true \/ x = dict_get DEFAULTS c) s'.
Proof.
  unfold coerce_numeric. intros [_ ->]%fillna_ok_inv.
  unfold to_numeric_coerce. rewrite map_map. apply List.Forall_map, Forall_true. intros x.
  destruct (isna (to_numeric_cell x)) eqn:Ena; [by right | left].
  destruct (to_numeric_cell_number x) as [[z E]|[f E]]; rewrite E in *; [done |].
  simpl in *. by rewrite Ena.
Qed.

Lemma parse_datetimes_timestamps c (s s' : list value) :
  parse_datetimes c s = Ok s' ->
  Forall (fun x => is_timestamp x = true \/ to_datetime_scalar (dict_get DEFAULTS c) = Ok x) s'.
Proof.
  unfold parse_datetimes.
  destruct (to_datetime_scalar (dict_get DEFAULTS c)) as [dv|]; [| done].
  intros [_ ->]%fillna_ok_inv.
  unfold to_datetime_coerce. rewrite map_map. apply List.Forall_map, Forall_true. intros x.
  destruct (isna (to_datetime_cell s x)) eqn:Ena; [by right | left].
  destruct x; simpl in *; repeat case_match; done.
Qed.

(** X9. What a successful [transform_df] leaves in the columns it
    normalizes: [passenger_count] holds integers only; every cell of
    [trip_distance] and [fare_amount] is a number or the policy default of
    its column; every cell of the two datetime columns is a Timestamp or the
    policy default as [pd.to_datetime] reads it. No text that failed to parse
    and no null other than a null default is left. *)
Theorem normalized_columns_typed l w w' d' :
  transform_df l w = (Ok l, w') ->
  heap w' !! l = Some d' ->
  (forall s, assoc "passenger_count" (columns d') = Some s ->
     Forall (fun x => is_int x = true) s) /\
  (forall c s, c ∈ ["trip_distance"; "fare_amount"] ->
     assoc c (columns d') = Some s ->
     Forall (fun x => is_number x = true \/ x = dict_get DEFAULTS c) s) /\
  (forall c s, c ∈ ["pickup_datetime"; "dropoff_datetime"] ->
     assoc c (columns d') = Some s ->
     Forall (fun x => is_timestamp x = true \/
                      to_datetime_scalar (dict_get DEFAULTS c) = Ok x) s).
Proof.
  intros E Hl'. apply transform_df_ok_inv in E as (d & d0 & Hl & Et & ->).
  assert (d0 = d') as ->.
  { simpl in Hl'. rewrite lookup_insert_eq in Hl'. congruence. }
  apply transform_frame_ok_inv in Et as (d1 & d2 & d3 & d4 & d5 & _ & _ & E3 & E4 & E5 & E6).
  apply bind_ok_inv in E3 as ([] & d2a & E3a & E3).
  apply bind_ok_inv in E3 as ([] & d2b & E3b & [= <-]).
  assert (forall c, c <> "fare_amount" -> assoc c (columns d') = assoc c (columns d5)) as K6.
  { intros c Hc. by apply (update_if_present_other _ _ _ _ _ Hc E6). }
  assert (forall c, c <> "passenger_count" -> assoc c (columns d5) = assoc c (columns d4)) as K5.
  { intros c Hc. by apply (update_if_present_other _ _ _ _ _ Hc E5). }
  assert (forall c, c <> "trip_distance" -> assoc c (columns d4) = assoc c (columns d2b)) as K4.
  { intros c Hc. by apply (update_if_present_other _ _ _ _ _ Hc E4). }
  assert (forall c, c <> "dropoff_datetime" -> assoc c (columns d2b) = assoc c (columns d2a)) as K3.
  { intros c Hc. by apply (update_if_present_other _ _ _ _ _ Hc E3b). }
  split; [| split].
  - intros s Hs. rewrite K6 in Hs by done.
    destruct (update_if_present_inv _ _ _ _ _ E5 Hs) as (s0 & _ & Hf).
    unfold coerce_int in Hf. destruct (coerce_numeric _ s0); [| done].
    by apply astype_int_ints in Hf.
  - intros c s Hc Hs. apply elem_of_cons in Hc as [->|Hc].
    + rewrite K6, K5 in Hs by done.
      destruct (update_if_present_inv _ _ _ _ _ E4 Hs) as (s0 & _ & Hf).
      by apply coerce_numeric_numbers in Hf.
    + apply list_elem_of_singleton in Hc as ->.
      destruct (update_if_present_inv _ _ _ _ _ E6 Hs) as (s0 & _ & Hf).
      by apply coerce_numeric_numbers in Hf.
  - intros c s Hc Hs. apply elem_of_cons in Hc as [->|Hc].
    + rewrite K6, K5, K4, K3 in Hs by done.
      destruct (update_if_present_inv _ _ _ _ _ E3a Hs) as (s0 & _ & Hf).
      by apply parse_datetimes_timestamps in Hf.
    + apply list_elem_of_singleton in Hc as ->.
      rewrite K6, K5, K4 in Hs by done.
      destruct (update_if_present_inv _ _ _ _ _ E3b Hs) as (s0 & _ & Hf).
      by apply parse_datetimes_timestamps in Hf.
Qed.

Lemma transform_frame_passthrough d d' c i x :
  transform_frame d = (Ok tt, d') ->
  c ∉ normalized_cols ->
  cell c i x d -> isna x = false -> cell c i x d'.
Proof.
  intros E Hc Hx Hna. apply bind_ok_inv in E as ([] & d1 & E1 & E2).
  pose proof (stable_run _ _ _ _ _ (stable_fill_defaults_body_cell c i x DEFAULTS Hna) Hx E1)
    as Hx1.
  refine (stable_run _ _ _ _ _ (stable_transform_df_body (cell c i x) _) Hx1 E2).
  intros c' Hc'. apply writable_cell. by intros ->.
Qed.

(** X10. The contract columns the transform does not normalize,
    [rate_code], [store_and_fwd] and [payment_type], pass through: when a
    run in mode transform ends normally on a well-formed staging table,
    every cell of such a column that is not null stands unchanged, in the
    same row, in the batch written to ClickHouse. *)
Theorem passthrough_columns w c s i x :
  c ∈ passthrough_cols ->
  wf_frame (raw_input w) ->
  assoc c (columns (raw_input w)) = Some s ->
  s !! i = Some x ->
  isna x = false ->
  let out := main ModeTransform w in
  out.1 = Ok tt ->
  exists b,
    processed_records out.2 = processed_records w ++ [b] /\
    nrows b = nrows (raw_input w) /\
    cell c i x b.
Proof.
  intros Hc Hwf Hs Hx Hna out Hout. subst out.
  assert (empty_frame (raw_input w) = false) as Hne.
  { unfold empty_frame. rewrite !bool_decide_eq_false_2; [done | |].
    - intros E. by rewrite E in Hs.
    - rewrite <- (wf_column_length _ _ _ Hwf Hs). apply lookup_lt_Some in Hx. lia. }
  rewrite main_ModeTransform in *.
  pose proof (transform_arm_facts (run_id_of w) (draw_uuid w)) as (_ & _ & bs & ms & Hbs & _ & _ & Hok).
  destruct (Hok Hout) as (m & _ & Hcase). cbn [raw_input draw_uuid] in Hcase.
  rewrite Hne in Hcase. destruct Hcase as (b & -> & Hb & _).
  exists b. split; [exact Hbs |].
  split; [exact (proj1 (batch_of_shape _ _ Hb)) |].
  unfold batch_of in Hb.
  destruct (transform_frame (raw_input w)) as [[[]|e] d'] eqn:Et; [| done].
  destruct (project_spec d') as (b' & Hp & _ & _ & Hcols). rewrite Hp in Hb.
  injection Hb as ->.
  destruct (transform_frame_passthrough _ _ c i x Et) as (s' & Hs' & Hx'); [| by exists s | done |].
  { unfold passthrough_cols, normalized_cols in *. intros Hin.
    repeat (apply elem_of_cons in Hc as [->|Hc];
            [by repeat (apply elem_of_cons in Hin as [[=]|Hin]); apply elem_of_nil in Hin |]).
    by apply elem_of_nil in Hc. }
  exists (map (fun v => if notna v then v else VNone) s'). split.
  - rewrite Hcols, Hs'; [done |]. unfold passthrough_cols, target_cols in *.
    repeat (apply elem_of_cons in Hc as [->|Hc]; [by repeat constructor |]).
    by apply elem_of_nil in Hc.
  - rewrite map_lookup, Hx'. simpl. unfold notna. by rewrite Hna.
Qed.

End Typed.

Lemma normalized_columns_typed_witness :
  let out := @transform_df example_runtime (example_deployment full_policy) 0%nat scenario_world in
  exists d',
    heap out.2 !! 0%nat = Some d' /\
    assoc "passenger_count" (columns d') = Some [VInt 1] /\
    assoc "trip_distance" (columns d') = Some [VFloat 1.0] /\
    Forall (fun x => is_int x = true) [VInt 1] /\
    Forall (fun x => is_number x = true \/
                     x = dict_get (@DEFAULTS (example_deployment full_policy)) "trip_distance")
           [VFloat 1.0].
Proof.
  intros out.
  destruct (heap out.2 !! 0%nat) as [d'|] eqn:Hd'; [| by vm_compute in Hd'].
  pose proof (@normalized_columns_typed example_runtime (example_deployment full_policy)
                0%nat scenario_world out.2 d' ltac:(vm_compute; reflexivity) Hd')
    as (Hint & Hnum & _).
  assert (assoc "passenger_count" (columns d') = Some [VInt 1]) as Hp.
  { vm_compute in Hd'. injection Hd' as <-. reflexivity. }
  assert (assoc "trip_distance" (columns d') = Some [VFloat 1.0]) as Ht.
  { vm_compute in Hd'. injection Hd' as <-. reflexivity. }
  exists d'. split; [done |]. split; [exact Hp |]. split; [exact Ht |].
  split; [exact (Hint _ Hp) |].
  apply (Hnum "trip_distance"); [by repeat constructor | exact Ht].
Defined.

Lemma passthrough_columns_witness :
  let out := @main example_runtime (example_deployment scenario_policy) ModeTransform
               (example_world staged_trips) in
  exists b,
    processed_records out.2 = [] ++ [b] /\
    nrows b = 1%nat /\
    cell "rate_code" 0 (VInt 5) b.
Proof.
  apply (@passthrough_columns example_runtime (example_deployment scenario_policy)
           (example_world staged_trips) "rate_code" [VInt 5] 0%nat (VInt 5)).
  - by repeat constructor.
  - split; [by apply (bool_decide_unpack (NoDup (column_names staged_trips))) |].
    by repeat constructor.
  - reflexivity.
  - reflexivity.
  - reflexivity.
  - vm_compute. reflexivity.
Defined.

(** * Runs, one after the other *)

Section Runs.
Context `{Runtime} `{Deployment}.
Implicit Types (w : World) (d t csv : DataFrame) (c : string).

Lemma ingest_missing path w :
  files w !! path = None ->
  ingest_csv_to_postgres path w = (Ok 0%nat, add_stderr ("CSV not found at " +:+ path) w).
Proof.
  intros Hf. unfold ingest_csv_to_postgres. rewrite bind_run. cbn [get fst snd]. by rewrite Hf.
Qed.

(** The three ways the transform arm goes, in one equation. *)
Lemma main_transform_run rid w :
  exists h,
    main_transform rid w =
      if empty_frame (raw_input w)
      then (Ok true,
            set_heap (fun _ => h)
              (add_metric (transform_metric rid w 0 "no rows")
                 (read_clock (add_stdout "No data in staging; skipping transform." w))))
      else match batch_of (raw_input w) with
           | Raise e => (Raise e, set_heap (fun _ => h) w)
           | Ok b =>
               (Ok false,
                set_heap (fun _ => h)
                  (add_stdout ("Wrote " +:+ pretty (nrows (raw_input w)) +:+ " rows to ClickHouse.")
                     (add_metric
                        (transform_metric rid w (nrows (raw_input w)) "Postgres -> ClickHouse")
                        (read_clock (add_processed b w)))))
           end.
Proof.
  destruct (empty_frame (raw_input w)) eqn:E.
  - by apply main_transform_empty.
  - by apply main_transform_nonempty.
Qed.

Lemma pg_insert_nonempty cols rows t t' :
  pg_insert cols rows t = Ok t' -> rows <> [] -> empty_frame t' = false.
Proof.
  unfold pg_insert. case_bool_decide as Hcols; [done |].
  destruct (forallb _ cols) eqn:Hall; [| done]. cbn [negb].
  case_bool_decide; [| done]. cbn [negb]. intros [= <-] Hrows.
  unfold empty_frame. cbn [nrows columns].
  rewrite !bool_decide_eq_false_2; [done | |].
  - destruct cols as [|c cols]; [done |]. cbn [forallb] in Hall.
    apply andb_prop in Hall as [Hc%bool_decide_eq_true _].
    destruct (columns t); [| done]. by destruct Hc.
  - destruct rows; [done |]. cbn [length]. lia.
Qed.

End Runs.

Section Schedules.
Context `{Runtime} `{Deployment}.
Implicit Types (w : World) (d t csv : DataFrame) (c : string).

(** A run in mode full that stages rows and ends normally. *)
Lemma full_run_staged w csv :
  files w !! INPUT_CSV = Some csv ->
  nrows csv <> 0%nat ->
  (main ModeFull w).1 = Ok tt ->
  exists t b,
    pg_insert (column_names csv) (csv_values csv) (raw_input w) = Ok t /\
    batch_of t = Ok b /\
    files (main ModeFull w).2 = files w /\
    raw_input (main ModeFull w).2 = t /\
    processed_records (main ModeFull w).2 = processed_records w ++ [b].
Proof.
  intros Hf Hn Hok. rewrite main_ModeFull in *.
  destruct (ingest_run INPUT_CSV (draw_uuid w) csv Hf) as (h & E).
  rewrite bool_decide_eq_false_2 in E by done. cbn [raw_input draw_uuid] in E.
  destruct (pg_insert _ _ (raw_input w)) as [t|e] eqn:Ep; rewrite E in *; [| done].
  match type of Hok with context [main_transform ?rid ?w1] =>
    destruct (main_transform_run rid w1) as (h1 & E1) end.
  cbn [raw_input set_heap add_metric read_clock add_stdout set_raw_input draw_uuid] in E1.
  rewrite (pg_insert_nonempty _ _ _ _ Ep) in E1 by by rewrite csv_values_nil.
  destruct (batch_of t) as [b|e] eqn:Eb; rewrite E1 in *; [| done].
  by exists t, b.
Qed.

(** X11. Nothing in a run empties the staging table or remembers what was
    written, so a second run in mode full over the same CSV stages its rows
    again and writes the whole staging table again: after two runs that end
    normally the table has grown by twice the rows of the CSV, and ClickHouse
    has received one batch of the rows staged after the first run and one
    batch of the rows staged after the second. *)
Theorem full_run_twice w csv :
  files w !! INPUT_CSV = Some csv ->
  nrows csv <> 0%nat ->
  let out1 := main ModeFull w in
  let out2 := main ModeFull out1.2 in
  out1.1 = Ok tt ->
  out2.1 = Ok tt ->
  nrows (raw_input out2.2) = (nrows (raw_input w) + 2 * nrows csv)%nat /\
  exists b1 b2,
    processed_records out2.2 = processed_records w ++ [b1; b2] /\
    nrows b1 = (nrows (raw_input w) + nrows csv)%nat /\
    nrows b2 = (nrows (raw_input w) + 2 * nrows csv)%nat.
Proof.
  intros Hf Hn out1 out2 Hok1 Hok2. subst out1 out2.
  destruct (full_run_staged w csv Hf Hn Hok1) as (t1 & b1 & Ep1 & Eb1 & Hf1 & Ht1 & Hpr1).
  rewrite <- Hf1 in Hf.
  destruct (full_run_staged _ csv Hf Hn Hok2) as (t2 & b2 & Ep2 & Eb2 & _ & Ht2 & Hpr2).
  rewrite Ht1 in Ep2.
  apply pg_insert_nrows in Ep1, Ep2. rewrite csv_values_length in Ep1, Ep2.
  apply batch_of_shape in Eb1 as [Hb1 _], Eb2 as [Hb2 _].
  rewrite Ht2. split; [lia |].
  exists b1, b2. rewrite Hpr2, Hpr1, <- app_assoc. split; [done |]. lia.
Qed.

End Schedules.

Lemma full_run_twice_witness :
  let w := csv_world trips_csv staged_trips in
  let out1 := @main example_runtime (example_deployment scenario_policy) ModeFull w in
  let out2 := @main example_runtime (example_deployment scenario_policy) ModeFull out1.2 in
  nrows (raw_input out2.2) = 5%nat /\
  exists b1 b2,
    processed_records out2.2 = [] ++ [b1; b2] /\
    nrows b1 = 3%nat /\
    nrows b2 = 5%nat.
Proof.
  apply (@full_run_twice example_runtime (example_deployment scenario_policy)
           (csv_world trips_csv staged_trips) trips_csv).
  - vm_compute. reflexivity.
  - done.
  - vm_compute. reflexivity.
  - vm_compute. reflexivity.
Defined.

(** * A DAG run against a run in mode full *)

Section DagRuns.
Context `{Runtime} `{Deployment}.
Implicit Types (w : World) (d t csv : DataFrame) (c : string).

Ltac world_fields_in E :=
  cbn [raw_input files processed_records pipeline_metrics uuid_source uuid_drawn clock
       clock_reads set_heap add_metric read_clock add_stdout add_stderr set_raw_input
       draw_uuid add_processed] in E.

Ltac ingest_step :=
  match goal with
  | Hf : files _ !! INPUT_CSV = Some ?csv |- context [ingest_csv_to_postgres INPUT_CSV ?w1] =>
      let h := fresh "h" in
      let E := fresh "E" in
      destruct (ingest_run INPUT_CSV w1 csv Hf) as (h & E);
      world_fields_in E; rewrite E; clear E
  | Hf : files _ !! INPUT_CSV = None |- context [ingest_csv_to_postgres INPUT_CSV ?w1] =>
      rewrite (ingest_missing INPUT_CSV w1 Hf)
  end.

Ltac transform_step :=
  match goal with
  | |- context [main_transform ?rid ?w1] =>
      let h := fresh "h" in
      let E := fresh "E" in
      destruct (main_transform_run rid w1) as (h & E);
      world_fields_in E; rewrite E; clear E
  end.

Ltac known :=
  repeat match goal with
         | E : bool_decide _ = _ |- _ => rewrite E
         | E : pg_insert _ _ _ = _ |- _ => rewrite E
         | E : empty_frame _ = _ |- _ => rewrite E
         | E : batch_of _ = _ |- _ => rewrite E
         end.

Ltac run :=
  repeat first
    [ progress known
    | progress cbn [fst snd after_transform]
    | ingest_step
    | match goal with |- context [main ModeIngest ?w] => rewrite (main_ModeIngest w) end
    | match goal with |- context [main ModeFull ?w] => rewrite (main_ModeFull w) end
    | transform_step
    | match goal with |- context [main ModeTransform ?w] => rewrite (main_ModeTransform w) end ].

(** X12. One run of the DAG does to the two stores what one run of the
    script in mode full does. It ends the same way, with the same exception
    when a stage raises (a try that fails changes neither store, so the
    retry fails as the first try did, and [transform] is not started after a
    failed [ingest]); it leaves the same staging table and the same batches
    in ClickHouse; and its metrics say the same but for the run they name:
    the two tasks are two processes, so the ingest metric and the transform
    metric of one DAG run carry two different run identifiers, where mode
    full gives both the same. *)
Theorem dag_run_matches_full w :
  let dag := csv_elt_dag.dag_run w in
  let full := main ModeFull w in
  dag.1 = full.1 /\
  raw_input dag.2 = raw_input full.2 /\
  processed_records dag.2 = processed_records full.2 /\
  metric_facts <$> pipeline_metrics dag.2 = metric_facts <$> pipeline_metrics full.2 /\
  (dag.1 = Ok tt ->
   exists m1 m2 m2',
     pipeline_metrics dag.2 = pipeline_metrics w ++ [m1; m2] /\
     pipeline_metrics full.2 = pipeline_metrics w ++ [m1; m2'] /\
     metric_facts m2 = metric_facts m2' /\
     run_id m1 = uuid_source w (uuid_drawn w) /\
     run_id m2' = uuid_source w (uuid_drawn w) /\
     run_id m2 = uuid_source w (S (uuid_drawn w))).
Proof.
  cbv zeta. unfold csv_elt_dag.dag_run, csv_elt_dag.ingest, csv_elt_dag.transform,
    csv_elt_dag.retries, csv_elt_dag.BashOperator.
  rewrite bind_run. cbn [csv_elt_dag.task_instance].
  destruct (files w !! INPUT_CSV) as [csv|] eqn:Hf;
    [destruct (bool_decide (nrows csv = 0%nat)) eqn:En;
     [| destruct (pg_insert (column_names csv) (csv_values csv) (raw_input w)) as [t|e] eqn:Ep] |].
  1, 4: destruct (empty_frame (raw_input w)) eqn:Ee;
    [| destruct (batch_of (raw_input w)) as [b|e] eqn:Eb].
  7: destruct (empty_frame t) eqn:Ee; [| destruct (batch_of t) as [b|e] eqn:Eb].
  all: run.
  all: cbn [raw_input files processed_records pipeline_metrics uuid_source uuid_drawn clock
            clock_reads set_heap add_metric read_clock add_stdout add_stderr set_raw_input
            draw_uuid add_processed].
  all: do 3 (split; [reflexivity |]).
  all: split; [by rewrite ?fmap_app |].
  all: first [ by intros [=]
             | intros _; eexists _, _, _; rewrite <- !app_assoc; repeat split; reflexivity ].
Qed.
End DagRuns.

Lemma dag_run_matches_full_witness :
  let w := csv_world trips_csv staged_trips in
  let dag := @csv_elt_dag.dag_run example_runtime (example_deployment scenario_policy) w in
  let full := @main example_runtime (example_deployment scenario_policy) ModeFull w in
  exists m1 m2 m2',
    pipeline_metrics dag.2 = [] ++ [m1; m2] /\
    pipeline_metrics full.2 = [] ++ [m1; m2'] /\
    metric_facts m2 = metric_facts m2' /\
    run_id m1 = "run-0" /\
    run_id m2' = "run-0" /\
    run_id m2 = "run-1".
Proof.
  apply (proj2 (proj2 (proj2 (proj2
           (@dag_run_matches_full example_runtime (example_deployment scenario_policy)
              (csv_world trips_csv staged_trips)))))).
  vm_compute. reflexivity.
Defined.

(** * From the CSV to the frame the transform reads *)

Section RoundTrip.
Context `{Runtime} `{Deployment}.
Implicit Types (w : World) (d t csv : DataFrame) (c : string).


End RoundTrip.


(** * Errors of the default fill and of the identity column *)

Section Failures.
Context `{Runtime} `{Deployment}.
Implicit Types (w : World) (d t csv : DataFrame) (c : string).

Lemma for_each_app {S A} (xs ys : list A) (body : A -> ST S unit) s :
  for_each (xs ++ ys) body s = st_bind (for_each xs body) (fun _ => for_each ys body) s.
Proof.
  revert s. induction xs as [|x xs IH]; intros s; [done |].
  cbn [app for_each]. rewrite !bind_run. destruct (body x s) as [[[]|e] s1]; [| done].
  cbn [fst snd]. rewrite IH. by rewrite bind_run.
Qed.

(** X14. A policy default of [None] for a column the batch has ends
    [fill_defaults] with the [ValueError] of [fillna], and nothing is rolled
    back: the caller's frame holds the defaults of the policy keys that come
    before that column, and none of those that come after. *)
Theorem fill_defaults_none_default (p1 p2 : list (string * value)) c l w d d1 :
  heap w !! l = Some d ->
  fill_defaults_body p1 d = (Ok tt, d1) ->
  is_Some (assoc c (columns d1)) ->
  fill_defaults l (p1 ++ (c, VNone) :: p2) w =
    (Raise (ValueError "Must specify a fill 'value' or 'method'."), set_heap <[l := d1]> w).
Proof.
  intros Hl E1 [s Hs].
  rewrite (fill_defaults_run _ _ _ _ Hl).
  unfold fill_defaults_body at 1 2. rewrite !for_each_app.
  fold (fill_defaults_body p1). rewrite !bind_run, E1. cbn [fst snd].
  fold (fill_defaults_body ((c, VNone) :: p2)).
  rewrite fill_defaults_body_cons, !bind_run, (fill_one_present _ _ _ _ Hs). done.
Qed.

(** X15. A batch that has no [id] column after the default fill needs both
    columns the identifier is made of: when [pickup_datetime] is missing,
    [transform_df] raises [KeyError] for it, and when only [trip_distance]
    is missing, for that one. The caller's frame is left as the default fill
    made it. *)
Theorem synthesized_id_needs_columns l w d d1 :
  heap w !! l = Some d ->
  fill_defaults_body DEFAULTS d = (Ok tt, d1) ->
  assoc "id" (columns d1) = None ->
  (assoc "pickup_datetime" (columns d1) = None ->
     transform_df l w = (Raise (KeyError "pickup_datetime"), set_heap <[l := d1]> w)) /\
  (is_Some (assoc "pickup_datetime" (columns d1)) ->
   assoc "trip_distance" (columns d1) = None ->
     transform_df l w = (Raise (KeyError "trip_distance"), set_heap <[l := d1]> w)).
Proof.
  intros Hl E1 Hid.
  assert (forall e, derive_id d1 = (Raise e, d1) ->
            transform_df l w = (Raise e, set_heap <[l := d1]> w)) as Hraise.
  { intros e Ed. rewrite (transform_df_run _ _ _ Hl). unfold transform_frame.
    rewrite bind_run, E1. cbn [fst snd].
    by rewrite transform_df_body_unfold, bind_run, Ed. }
  assert (contains "id" d1 = (Ok false, d1)) as Hc by by apply contains_false.
  split.
  - intros Hp. apply Hraise. unfold derive_id, st_bind. rewrite Hc. cbn [negb].
    unfold getitem. by rewrite Hp.
  - intros [p Hp] Ht. apply Hraise. unfold derive_id, st_bind. rewrite Hc. cbn [negb].
    unfold getitem. by rewrite Hp, Ht.
Qed.

End Failures.

Lemma fill_defaults_none_default_witness :
  fill_defaults 0%nat
      ([("trip_distance", VFloat 1.0)] ++ ("vendor", VNone) :: [("passenger_count", VInt 1)])
      (set_heap <[0%nat := fill_example_frame]> (example_world fill_example_frame))
  = (Raise (ValueError "Must specify a fill 'value' or 'method'."),
     set_heap
       <[0%nat := {| nrows := 2;
                     columns := [("trip_distance", [VFloat 1.0; VFloat 2.5]);
                                 ("vendor", [VStr "a"; VNone])] |}]>
       (set_heap <[0%nat := fill_example_frame]> (example_world fill_example_frame))).
Proof.
  apply (fill_defaults_none_default [("trip_distance", VFloat 1.0)]
           [("passenger_count", VInt 1)] "vendor" 0%nat
           (set_heap <[0%nat := fill_example_frame]> (example_world fill_example_frame))
           fill_example_frame).
  - reflexivity.
  - reflexivity.
  - by eexists.
Defined.

Lemma synthesized_id_needs_columns_witness :
  @transform_df example_runtime (example_deployment []) 0%nat
      (set_heap <[0%nat := distance_frame]> (example_world distance_frame))
  = (Raise (KeyError "pickup_datetime"),
     set_heap <[0%nat := distance_frame]>
       (set_heap <[0%nat := distance_frame]> (example_world distance_frame))).
Proof.
  destruct (@synthesized_id_needs_columns example_runtime (example_deployment []) 0%nat
              (set_heap <[0%nat := distance_frame]> (example_world distance_frame))
              distance_frame distance_frame)
    as [Hpickup _].
  - reflexivity.
  - reflexivity.
  - reflexivity.
  - apply Hpickup. reflexivity.
Defined.
